(** * Facedancer: the USB device model of [facedancer/future/device.py]

    A shallow embedding of [USBBaseDevice] and [USBDevice]: the device
    record, its I/O helpers, the control-request dispatcher, the standard
    request handlers and the descriptor encoders, followed by the
    properties the specification states about them.

    Python integers are [Z]; [bytes]/[bytearray] values are lists of
    integers in [0, 256); dictionaries are [gmap]s and sets are [gset]s.
    Methods mutate [self], call the backend and may raise, so they are
    computations in a small state-and-exception monad over the device
    record, whose [trace] field logs every call made on the backend and
    every terminal action taken on a control request, oldest first. *)

From Stdlib Require Import ZArith Lia.
From stdpp Require Import base gmap strings list fin_maps.

Local Open Scope Z_scope.

Set Warnings "-register-all".

(** ** Enumerations of [facedancer/future/types.py] *)

(** Modelled from the spec: the [types] module is not part of the sources
    at hand; the spec names the members (direction IN/OUT, request type
    standard/class/vendor/reserved, recipient device/interface/endpoint/
    other) and USB 2.0 chapter 9 fixes the numbers. *)
Inductive USBDirection := OUT | IN.

Inductive USBRequestType := STANDARD | CLASS | VENDOR | RESERVED.

Inductive USBRequestRecipient := DEVICE | INTERFACE | ENDPOINT | OTHER.

#[global] Instance USBDirection_eq_dec : EqDecision USBDirection.
Proof. solve_decision. Defined.

#[global] Instance USBRequestType_eq_dec : EqDecision USBRequestType.
Proof. solve_decision. Defined.

#[global] Instance USBRequestRecipient_eq_dec : EqDecision USBRequestRecipient.
Proof. solve_decision. Defined.

#[global] Instance USBDirection_countable : Countable USBDirection.
Proof.
  refine (inj_countable' (fun d => match d with OUT => 0%nat | IN => 1%nat end)
            (fun n => match n with 0%nat => OUT | _ => IN end) _).
  by intros [].
Defined.

#[global] Instance USBRequestType_countable : Countable USBRequestType.
Proof.
  refine (inj_countable'
            (fun t => match t with
                      | STANDARD => 0%nat | CLASS => 1%nat
                      | VENDOR => 2%nat | RESERVED => 3%nat end)
            (fun n => match n with
                      | 0%nat => STANDARD | 1%nat => CLASS
                      | 2%nat => VENDOR | _ => RESERVED end) _).
  by intros [].
Defined.

#[global] Instance USBRequestRecipient_countable : Countable USBRequestRecipient.
Proof.
  refine (inj_countable'
            (fun t => match t with
                      | DEVICE => 0%nat | INTERFACE => 1%nat
                      | ENDPOINT => 2%nat | OTHER => 3%nat end)
            (fun n => match n with
                      | 0%nat => DEVICE | 1%nat => INTERFACE
                      | 2%nat => ENDPOINT | _ => OTHER end) _).
  by intros [].
Defined.

(** Modelled from the spec: [DescriptorTypes], [LanguageIDs] and
    [USBStandardRequests] of the absent [types] module, with the USB 2.0
    numbers ([DESCRIPTOR_TYPE_NUMBER = 0x01] in the source agrees). *)
Module DescriptorTypes.
Definition DEVICE : Z := 1.
Definition CONFIGURATION : Z := 2.
Definition STRING : Z := 3.
End DescriptorTypes.

Module LanguageIDs.
Definition ENGLISH_US : Z := 0x0409.
End LanguageIDs.

Module USBStandardRequests.
Definition GET_STATUS : Z := 0.
Definition CLEAR_FEATURE : Z := 1.
Definition SET_FEATURE : Z := 3.
Definition SET_ADDRESS : Z := 5.
Definition GET_DESCRIPTOR : Z := 6.
Definition SET_DESCRIPTOR : Z := 7.
Definition GET_CONFIGURATION : Z := 8.
Definition SET_CONFIGURATION : Z := 9.
Definition GET_INTERFACE : Z := 10.
Definition SET_INTERFACE : Z := 11.
Definition SYNCH_FRAME : Z := 12.
End USBStandardRequests.

(** ** Python values *)

Abbreviation bytes := (list Z) (only parsing).

Definition byte_ok (z : Z) : Prop := 0 <= z < 256.

Definition byte_okb (z : Z) : bool := (0 <=? z) && (z <? 256).

Inductive Exception :=
| KeyError
| ValueError
| AttributeError
| OverflowError
| KeyboardInterrupt
| OtherException (name : string).

(** [data[0:k]] on a sequence: a negative [k] counts from the end. *)
Definition slice_to {A} (k : Z) (l : list A) : list A :=
  if 0 <=? k then take (Z.to_nat k) l
  else take (length l - Z.to_nat (- k)) l.

(** What is left after [del data[0:k]]. *)
Definition del_slice_to {A} (k : Z) (l : list A) : list A :=
  if 0 <=? k then drop (Z.to_nat k) l
  else drop (length l - Z.to_nat (- k)) l.

(** ** Control requests *)

(** Modelled from the spec: [USBControlRequest] of the absent [request]
    module, "built fresh for every control transaction from the raw
    8-byte setup packet: direction, request type, recipient, request
    number, and the two 16-bit value/index fields plus requested length,
    plus any accompanying OUT-direction payload".  The length comes off
    the wire as an unsigned field, hence [N]. *)
Record USBControlRequest := {
  req_direction : USBDirection;
  req_type : USBRequestType;
  req_recipient : USBRequestRecipient;
  req_number : Z;
  req_value : Z;
  req_index : Z;
  req_length : N;
  req_data : bytes
}.

Definition value_high (r : USBControlRequest) : Z := Z.shiftr (req_value r) 8.
Definition value_low (r : USBControlRequest) : Z := Z.land (req_value r) 0xff.
Definition index_low (r : USBControlRequest) : Z := Z.land (req_index r) 0xff.

(** ** Handler bindings *)

(** The request-handler methods [USBDevice] declares, and a tag for the
    handlers a subclass, configuration, interface or endpoint brings. *)
Inductive HandlerMethod :=
| handle_get_status_request_m
| handle_clear_feature_request_m
| handle_set_feature_request_m
| handle_set_address_request_m
| handle_get_descriptor_request_m
| handle_set_descriptor_request_m
| handle_get_configuration_request_m
| handle_set_configuration_request_m
| handle_get_interface_request_m
| handle_set_interface_request_m
| handle_synch_frame_request_m
| user_handler_m (id : nat).

(** Modelled from the spec: the matching metadata the decorators of the
    absent [request] module attach to a method, "a tuple
    (request-type-or-wildcard, recipient-or-wildcard,
    direction-or-wildcard, request-number-or-wildcard) paired with the
    bound handler function"; [None] is the wildcard. *)
Record HandlerBinding := {
  hb_type : option USBRequestType;
  hb_recipient : option USBRequestRecipient;
  hb_direction : option USBDirection;
  hb_number : option Z;
  hb_method : HandlerMethod
}.

(** A request handler below the device: its own bindings and its
    subordinate handlers (configuration, then interfaces, then
    endpoints). *)
Inductive RequestHandlerNode :=
| HandlerNode (own : list HandlerBinding) (subordinates : list RequestHandlerNode).

(** ** Configurations and endpoints *)

(** Modelled from the spec: [USBEndpoint] of the absent [endpoint]
    module, "endpoint number, direction (IN/OUT), max packet size". *)
Record USBEndpoint := {
  ep_number : Z;
  ep_direction : USBDirection;
  ep_max_packet_size : Z
}.

(** Modelled from the spec: [USBConfiguration] of the absent
    [configuration] module: its 1-based number, the bytes its
    [get_descriptor()] produces, the interface numbers and endpoints it
    exposes, and its request handlers. *)
Record USBConfiguration := {
  cfg_number : Z;
  cfg_descriptor : bytes;
  cfg_interfaces : list Z;
  cfg_endpoints : list USBEndpoint;
  cfg_handlers : RequestHandlerNode
}.

(** Modelled from the spec: [USBConfiguration.get_endpoint], the endpoint
    with the given identity key (number, direction), or [None]. *)
Definition configuration_get_endpoint (c : USBConfiguration)
    (endpoint_number : Z) (direction : USBDirection) : option USBEndpoint :=
  List.find (fun e => bool_decide (ep_number e = endpoint_number)
                      && bool_decide (ep_direction e = direction))
            (cfg_endpoints c).

(** ** Descriptor producers *)

(** The methods of the device that [__post_init__] installs in the
    descriptor table. *)
Inductive BoundProducer :=
| get_descriptor_m
| get_configuration_descriptor_m
| get_string_descriptor_m.

(** A value of the [descriptors] dictionary, [Union[bytes, callable]], or
    what calling such a value returns: [None], a byte buffer, a callable
    taking the descriptor index, or one of the device's own methods. *)
Inductive Producer :=
| PNone
| PBytes (b : bytes)
| PCallable (f : Z -> Producer)
| PBound (m : BoundProducer).

(** ** The backend and the event trace *)

(** The calls of the backend contract the device makes. *)
Inductive Event :=
| BackendConnect (max_packet_size_ep0 : Z)
| BackendDisconnect
| BackendServiceIrqs
| BackendSendOnEndpoint (endpoint_number : Z) (data : bytes) (blocking : bool)
| BackendStallEndpoint (endpoint_number : Z) (direction : USBDirection)
| BackendSetAddress (address : Z) (defer : bool)
| BackendConfigured (configuration : option USBConfiguration)
| BackendReset
| RequestReply (data : bytes)
| RequestAcknowledge (blocking : bool)
| RequestStall.

(** A handle on the external backend object. *)
Inductive FacedancerUSBApp := FacedancerUSBApp_new.

(** ** The device *)

Abbreviation Suggestion :=
  (USBDirection * USBRequestType * USBRequestRecipient * Z)%type (only parsing).

Record SuggestionMetadata := {
  meta_length : N;
  meta_data : bytes
}.

Record USBBaseDevice := {
  name : string;
  device_class : Z;
  device_subclass : Z;
  protocol_revision_number : Z;
  max_packet_size_ep0 : Z;
  vendor_id : Z;
  product_id : Z;
  manufacturer_string : string;
  product_string : string;
  serial_number_string : string;
  supported_languages : list Z;
  device_revision : Z;
  usb_spec_version : Z;
  descriptors : gmap Z Producer;
  configurations : gmap Z USBConfiguration;
  backend : option FacedancerUSBApp;
  (* set up by __post_init__ *)
  strings : list string;
  address : Z;
  configuration : option USBConfiguration;
  _request_handler_methods : list HandlerBinding;
  _suggested_requests : gset Suggestion;
  _suggested_request_metadata : gmap Suggestion SuggestionMetadata;
  (* everything done to the backend and to requests so far *)
  trace : list Event
}.

(** Field updates ([self.x = v]). *)
Definition with_trace (t : list Event) (d : USBBaseDevice) : USBBaseDevice :=
  {| name := name d; device_class := device_class d;
     device_subclass := device_subclass d;
     protocol_revision_number := protocol_revision_number d;
     max_packet_size_ep0 := max_packet_size_ep0 d;
     vendor_id := vendor_id d; product_id := product_id d;
     manufacturer_string := manufacturer_string d;
     product_string := product_string d;
     serial_number_string := serial_number_string d;
     supported_languages := supported_languages d;
     device_revision := device_revision d;
     usb_spec_version := usb_spec_version d;
     descriptors := descriptors d; configurations := configurations d;
     backend := backend d; strings := strings d; address := address d;
     configuration := configuration d;
     _request_handler_methods := _request_handler_methods d;
     _suggested_requests := _suggested_requests d;
     _suggested_request_metadata := _suggested_request_metadata d;
     trace := t |}.

Definition with_backend (b : option FacedancerUSBApp) (d : USBBaseDevice)
    : USBBaseDevice :=
  {| name := name d; device_class := device_class d;
     device_subclass := device_subclass d;
     protocol_revision_number := protocol_revision_number d;
     max_packet_size_ep0 := max_packet_size_ep0 d;
     vendor_id := vendor_id d; product_id := product_id d;
     manufacturer_string := manufacturer_string d;
     product_string := product_string d;
     serial_number_string := serial_number_string d;
     supported_languages := supported_languages d;
     device_revision := device_revision d;
     usb_spec_version := usb_spec_version d;
     descriptors := descriptors d; configurations := configurations d;
     backend := b; strings := strings d; address := address d;
     configuration := configuration d;
     _request_handler_methods := _request_handler_methods d;
     _suggested_requests := _suggested_requests d;
     _suggested_request_metadata := _suggested_request_metadata d;
     trace := trace d |}.

Definition with_strings (s : list string) (d : USBBaseDevice) : USBBaseDevice :=
  {| name := name d; device_class := device_class d;
     device_subclass := device_subclass d;
     protocol_revision_number := protocol_revision_number d;
     max_packet_size_ep0 := max_packet_size_ep0 d;
     vendor_id := vendor_id d; product_id := product_id d;
     manufacturer_string := manufacturer_string d;
     product_string := product_string d;
     serial_number_string := serial_number_string d;
     supported_languages := supported_languages d;
     device_revision := device_revision d;
     usb_spec_version := usb_spec_version d;
     descriptors := descriptors d; configurations := configurations d;
     backend := backend d; strings := s; address := address d;
     configuration := configuration d;
     _request_handler_methods := _request_handler_methods d;
     _suggested_requests := _suggested_requests d;
     _suggested_request_metadata := _suggested_request_metadata d;
     trace := trace d |}.

Definition with_address (a : Z) (d : USBBaseDevice) : USBBaseDevice :=
  {| name := name d; device_class := device_class d;
     device_subclass := device_subclass d;
     protocol_revision_number := protocol_revision_number d;
     max_packet_size_ep0 := max_packet_size_ep0 d;
     vendor_id := vendor_id d; product_id := product_id d;
     manufacturer_string := manufacturer_string d;
     product_string := product_string d;
     serial_number_string := serial_number_string d;
     supported_languages := supported_languages d;
     device_revision := device_revision d;
     usb_spec_version := usb_spec_version d;
     descriptors := descriptors d; configurations := configurations d;
     backend := backend d; strings := strings d; address := a;
     configuration := configuration d;
     _request_handler_methods := _request_handler_methods d;
     _suggested_requests := _suggested_requests d;
     _suggested_request_metadata := _suggested_request_metadata d;
     trace := trace d |}.

Definition with_configuration (c : option USBConfiguration) (d : USBBaseDevice)
    : USBBaseDevice :=
  {| name := name d; device_class := device_class d;
     device_subclass := device_subclass d;
     protocol_revision_number := protocol_revision_number d;
     max_packet_size_ep0 := max_packet_size_ep0 d;
     vendor_id := vendor_id d; product_id := product_id d;
     manufacturer_string := manufacturer_string d;
     product_string := product_string d;
     serial_number_string := serial_number_string d;
     supported_languages := supported_languages d;
     device_revision := device_revision d;
     usb_spec_version := usb_spec_version d;
     descriptors := descriptors d; configurations := configurations d;
     backend := backend d; strings := strings d; address := address d;
     configuration := c;
     _request_handler_methods := _request_handler_methods d;
     _suggested_requests := _suggested_requests d;
     _suggested_request_metadata := _suggested_request_metadata d;
     trace := trace d |}.

Definition with_configurations (cs : gmap Z USBConfiguration) (d : USBBaseDevice)
    : USBBaseDevice :=
  {| name := name d; device_class := device_class d;
     device_subclass := device_subclass d;
     protocol_revision_number := protocol_revision_number d;
     max_packet_size_ep0 := max_packet_size_ep0 d;
     vendor_id := vendor_id d; product_id := product_id d;
     manufacturer_string := manufacturer_string d;
     product_string := product_string d;
     serial_number_string := serial_number_string d;
     supported_languages := supported_languages d;
     device_revision := device_revision d;
     usb_spec_version := usb_spec_version d;
     descriptors := descriptors d; configurations := cs;
     backend := backend d; strings := strings d; address := address d;
     configuration := configuration d;
     _request_handler_methods := _request_handler_methods d;
     _suggested_requests := _suggested_requests d;
     _suggested_request_metadata := _suggested_request_metadata d;
     trace := trace d |}.

Definition with_suggestions (s : gset Suggestion)
    (m : gmap Suggestion SuggestionMetadata) (d : USBBaseDevice) : USBBaseDevice :=
  {| name := name d; device_class := device_class d;
     device_subclass := device_subclass d;
     protocol_revision_number := protocol_revision_number d;
     max_packet_size_ep0 := max_packet_size_ep0 d;
     vendor_id := vendor_id d; product_id := product_id d;
     manufacturer_string := manufacturer_string d;
     product_string := product_string d;
     serial_number_string := serial_number_string d;
     supported_languages := supported_languages d;
     device_revision := device_revision d;
     usb_spec_version := usb_spec_version d;
     descriptors := descriptors d; configurations := configurations d;
     backend := backend d; strings := strings d; address := address d;
     configuration := configuration d;
     _request_handler_methods := _request_handler_methods d;
     _suggested_requests := s;
     _suggested_request_metadata := m;
     trace := trace d |}.

Definition with_descriptors (ds : gmap Z Producer) (d : USBBaseDevice)
    : USBBaseDevice :=
  {| name := name d; device_class := device_class d;
     device_subclass := device_subclass d;
     protocol_revision_number := protocol_revision_number d;
     max_packet_size_ep0 := max_packet_size_ep0 d;
     vendor_id := vendor_id d; product_id := product_id d;
     manufacturer_string := manufacturer_string d;
     product_string := product_string d;
     serial_number_string := serial_number_string d;
     supported_languages := supported_languages d;
     device_revision := device_revision d;
     usb_spec_version := usb_spec_version d;
     descriptors := ds; configurations := configurations d;
     backend := backend d; strings := strings d; address := address d;
     configuration := configuration d;
     _request_handler_methods := _request_handler_methods d;
     _suggested_requests := _suggested_requests d;
     _suggested_request_metadata := _suggested_request_metadata d;
     trace := trace d |}.

(** ** The monad of device methods *)

(** How a call ends: it returns, it raises, or the model ran out of fuel
    inside a [while] loop that had not finished. *)
Inductive Outcome (A : Type) :=
| Returns (a : A)
| Raises (e : Exception)
| Unfinished.

Arguments Returns {A} a.
Arguments Raises {A} e.
Arguments Unfinished {A}.

Definition M (A : Type) : Type := USBBaseDevice -> Outcome A * USBBaseDevice.

#[global] Instance M_ret : MRet M := fun A a d => (Returns a, d).

#[global] Instance M_bind : MBind M := fun A B f m d =>
  match m d with
  | (Returns a, d') => f a d'
  | (Raises e, d') => (Raises e, d')
  | (Unfinished, d') => (Unfinished, d')
  end.

#[global] Instance M_throw : MThrow Exception M := fun A e d => (Raises e, d).

Definition unfinished {A} : M A := fun d => (Unfinished, d).

Definition get_self : M USBBaseDevice := fun d => (Returns d, d).

Definition modify_self (f : USBBaseDevice -> USBBaseDevice) : M unit :=
  fun d => (Returns tt, f d).

Definition log (e : Event) : M unit :=
  modify_self (fun d => with_trace (trace d ++ [e]) d).

(** [try: body / except KeyboardInterrupt: pass]. *)
Definition try_except_KeyboardInterrupt (body : M unit) : M unit := fun d =>
  match body d with
  | (Raises KeyboardInterrupt, d') => (Returns tt, d')
  | r => r
  end.

(** [try: body / except KeyError: handler]. *)
Definition try_except_KeyError (body handler : M unit) : M unit := fun d =>
  match body d with
  | (Raises KeyError, d') => handler d'
  | r => r
  end.

(** [try: body / finally: cleanup]: the cleanup runs however the body
    ended, and the body's outcome stands unless the cleanup itself fails. *)
Definition try_finally {A} (body : M A) (cleanup : M unit) : M A := fun d =>
  match body d with
  | (Unfinished, d') => (Unfinished, d')
  | (r, d') =>
      match cleanup d' with
      | (Returns _, d'') => (r, d'')
      | (Raises e, d'') => (Raises e, d'')
      | (Unfinished, d'') => (Unfinished, d'')
      end
  end.

(** A method call on [self.backend]: an [AttributeError] when the backend
    is still [None], else the call is made (and recorded). *)
Definition backend_call (e : Event) : M unit :=
  d ← get_self;
  match backend d with
  | None => mthrow AttributeError
  | Some _ => log e
  end.

(** Modelled from the spec: [request.reply], [request.acknowledge] and
    [request.stall] of the absent [request] module, the three terminal
    actions of a control transaction; each is recorded in the trace.
    What the absent methods go on to ask of the device and its backend
    (and how they fare without a backend) is not modelled: a property
    below that names one of these events speaks of the action taken on
    the request, not of the backend calls it leads to. *)
Definition request_reply (r : USBControlRequest) (data : bytes) : M unit :=
  log (RequestReply data).

Definition request_acknowledge (r : USBControlRequest) (blocking : bool) : M unit :=
  log (RequestAcknowledge blocking).

Definition request_stall (r : USBControlRequest) : M unit :=
  log RequestStall.

(** ** [USBBaseDevice]: control interface *)

(** Modelled from the spec: [StringDescriptorManager.get_index] of the
    absent [descriptor] module, which "maps each distinct string value to
    a stable 1-based index in first-seen order"; [strings] holds the
    strings seen so far, the string at position [i] having index [i+1]. *)
Definition strings_get_index (s : string) : M Z :=
  d ← get_self;
  match list_find (fun x => x = s) (strings d) with
  | Some (i, _) => mret (Z.of_nat i + 1)
  | None =>
      modify_self (with_strings (strings d ++ [s]));;
      mret (Z.of_nat (length (strings d)) + 1)
  end.

(** [__post_init__], given what [instantiate_subordinates] and
    [get_request_handler_methods] (absent modules) collect from the
    class: the descriptors and configurations declared on it, keyed by
    their identifier, and its decorated handler methods. *)
Definition __post_init__ (d : USBBaseDevice)
    (subordinate_descriptors : gmap Z Producer)
    (subordinate_configurations : gmap Z USBConfiguration)
    (handler_methods : list HandlerBinding) : USBBaseDevice :=
  {| name := name d; device_class := device_class d;
     device_subclass := device_subclass d;
     protocol_revision_number := protocol_revision_number d;
     max_packet_size_ep0 := max_packet_size_ep0 d;
     vendor_id := vendor_id d; product_id := product_id d;
     manufacturer_string := manufacturer_string d;
     product_string := product_string d;
     serial_number_string := serial_number_string d;
     supported_languages := supported_languages d;
     device_revision := device_revision d;
     usb_spec_version := usb_spec_version d;
     descriptors :=
       <[DescriptorTypes.STRING := PBound get_string_descriptor_m]>
         (<[DescriptorTypes.CONFIGURATION := PBound get_configuration_descriptor_m]>
            (<[DescriptorTypes.DEVICE := PBound get_descriptor_m]>
               (subordinate_descriptors ∪ descriptors d)));
     configurations := subordinate_configurations;
     backend := backend d;
     strings := [];
     address := 0;
     configuration := None;
     _request_handler_methods := handler_methods;
     _suggested_requests := ∅;
     _suggested_request_metadata := ∅;
     trace := trace d |}.

Definition add_configuration (c : USBConfiguration) : M unit :=
  modify_self (fun d => with_configurations (<[cfg_number c := c]> (configurations d)) d).

Definition connect : M unit :=
  d ← get_self;
  match backend d with
  | None => modify_self (with_backend (Some FacedancerUSBApp_new))
  | Some _ => mret tt
  end;;
  backend_call (BackendConnect (max_packet_size_ep0 d)).

Definition disconnect : M unit :=
  backend_call BackendDisconnect.

(** ** [USBBaseDevice]: I/O interface *)

Definition stall (endpoint_number : Z) (direction : USBDirection) : M unit :=
  backend_call (BackendStallEndpoint endpoint_number direction).

(** The [while data:] loop of [_send_in_packets]; [fuel] bounds the
    number of iterations the model follows. *)
Fixpoint send_packets_loop (fuel : nat) (endpoint_number : Z) (data : bytes)
    (packet_size : Z) (blocking : bool) : M unit :=
  match data with
  | [] => mret tt
  | _ :: _ =>
      match fuel with
      | O => unfinished
      | S fuel' =>
          let packet := slice_to packet_size data in
          let data' := del_slice_to packet_size data in
          backend_call (BackendSendOnEndpoint endpoint_number packet blocking);;
          send_packets_loop fuel' endpoint_number data' packet_size blocking
      end
  end.

(** One iteration per byte is all a terminating run of the loop can take
    (every iteration with a positive [packet_size] removes a byte, and
    with any other [packet_size] the loop never ends), so the length of
    the payload is the fuel. *)
Definition _send_in_packets (endpoint_number : Z) (data : bytes)
    (packet_size : Z) (blocking : bool) : M unit :=
  match data with
  | [] => backend_call (BackendSendOnEndpoint endpoint_number data blocking)
  | _ :: _ =>
      send_packets_loop (length data) endpoint_number data packet_size blocking
  end.

(** Modelled from the spec: [USBEndpoint.send] of the absent [endpoint]
    module, which chunks the payload "into consecutive packets no larger
    than the endpoint's negotiated max packet size" through the device. *)
Definition endpoint_send (e : USBEndpoint) (data : bytes) (blocking : bool) : M unit :=
  _send_in_packets (ep_number e) data (ep_max_packet_size e) blocking.

Definition send (endpoint_number : Z) (data : bytes) (blocking : bool) : M unit :=
  if decide (endpoint_number = 0) then
    backend_call (BackendSendOnEndpoint 0 data blocking)
  else
    d ← get_self;
    match configuration d with
    | Some c =>
        match configuration_get_endpoint c endpoint_number IN with
        | Some endpoint => endpoint_send endpoint data blocking
        | None => mthrow AttributeError
        end
    | None => mret tt
    end.

Definition get_endpoint (endpoint_number : Z) (direction : USBDirection)
    : M (option USBEndpoint) :=
  d ← get_self;
  match configuration d with
  | Some c => mret (configuration_get_endpoint c endpoint_number direction)
  | None => mret None
  end.

(** ** [USBBaseDevice]: event handlers *)

Definition handle_bus_reset : M unit :=
  modify_self (with_configuration None);;
  modify_self (with_address 0);;
  backend_call BackendReset.

(** ** [USBBaseDevice]: suggestion engine *)

Definition suggestion_summary (r : USBControlRequest) : Suggestion :=
  (req_direction r, req_type r, req_recipient r, req_number r).

Definition _add_request_suggestion (r : USBControlRequest) : M unit :=
  modify_self (fun d =>
    with_suggestions
      ({[suggestion_summary r]} ∪ _suggested_requests d)
      (<[suggestion_summary r :=
           {| meta_length := req_length r; meta_data := req_data r |}]>
         (_suggested_request_metadata d))
      d).

(** ** [USBBaseDevice]: backend helpers and descriptors *)

Definition set_address (a : Z) (defer : bool) : M unit :=
  modify_self (with_address a);;
  backend_call (BackendSetAddress a defer).

(** [bytearray([...])] on a list of integers: a [ValueError] unless every
    one of them is in [range(256)]. *)
Definition bytearray_of (l : list Z) : M bytes :=
  if forallb byte_okb l then mret l else mthrow ValueError.

Definition get_descriptor : M bytes :=
  d ← get_self;
  manufacturer ← strings_get_index (manufacturer_string d);
  product ← strings_get_index (product_string d);
  serial ← strings_get_index (serial_number_string d);
  bytearray_of [
    18;
    1;
    Z.land (Z.shiftr (usb_spec_version d) 8) 0xff;
    Z.land (usb_spec_version d) 0xff;
    device_class d;
    device_subclass d;
    protocol_revision_number d;
    max_packet_size_ep0 d;
    Z.land (vendor_id d) 0xff;
    Z.land (Z.shiftr (vendor_id d) 8) 0xff;
    Z.land (product_id d) 0xff;
    Z.land (Z.shiftr (product_id d) 8) 0xff;
    Z.land (Z.shiftr (device_revision d) 8) 0xff;
    Z.land (device_revision d) 0xff;
    manufacturer;
    product;
    serial;
    Z.of_nat (size (configurations d))
  ].

Definition get_configuration_descriptor (index : Z) : M bytes :=
  d ← get_self;
  match configurations d !! (index + 1) with
  | Some c => mret (cfg_descriptor c)
  | None => mthrow KeyError
  end.

(** [language.to_bytes(2, byteorder='little')]. *)
Definition to_bytes_2_little (z : Z) : M bytes :=
  if (0 <=? z) && (z <? 65536) then mret [Z.land z 0xff; Z.shiftr z 8]
  else mthrow OverflowError.

Fixpoint extend_languages (packet : bytes) (languages : list Z) : M bytes :=
  match languages with
  | [] => mret packet
  | language :: rest =>
      b ← to_bytes_2_little language;
      extend_languages (packet ++ b) rest
  end.

Definition handle_get_supported_languages_descriptor : M bytes :=
  d ← get_self;
  let total_length := Z.of_nat (length (supported_languages d)) * 2 + 2 in
  packet ← bytearray_of [total_length; DescriptorTypes.STRING];
  extend_languages packet (supported_languages d).

(** Modelled from the spec: [StringDescriptorManager.__getitem__] of the
    absent [descriptor] module: the "UTF-16LE encoded descriptor bytes
    with the standard 2-byte header" of the string with that index.  The
    characters of a [string] are code points below 256, each two bytes in
    UTF-16LE.  The spec does not say what an unassigned index gives;
    [None] is taken here, and nothing below depends on it. *)
Definition string_descriptor (s : string) : bytes :=
  [2 + 2 * Z.of_nat (String.length s); DescriptorTypes.STRING]
  ++ flat_map (fun c => [Z.of_N (Ascii.N_of_ascii c); 0]) (String.list_ascii_of_string s).

Definition strings_getitem (index : Z) : M Producer :=
  d ← get_self;
  match strings d !! Z.to_nat (index - 1) with
  | Some s => if 1 <=? index then mret (PBytes (string_descriptor s)) else mret PNone
  | None => mret PNone
  end.

Definition get_string_descriptor (index : Z) : M Producer :=
  if decide (index = 0) then
    b ← handle_get_supported_languages_descriptor; mret (PBytes b)
  else strings_getitem index.

(** Calling one of the device's own producers with the descriptor index
    ([lambda _ : self.get_descriptor()] drops it). *)
Definition call_bound (m : BoundProducer) (index : Z) : M Producer :=
  match m with
  | get_descriptor_m => b ← get_descriptor; mret (PBytes b)
  | get_configuration_descriptor_m =>
      b ← get_configuration_descriptor index; mret (PBytes b)
  | get_string_descriptor_m => get_string_descriptor index
  end.

(** [while callable(response): response = response(descriptor_index)].
    A callable put into the table is a total function of the index here,
    and a chain of them a finite tower: a callable that raises, changes
    the device or never ends the chain is outside this model.  The
    device's own producers, which do raise and do extend the string
    table, are the [PBound] entries.  What comes out of a chain is [None]
    or a byte buffer. *)
Fixpoint resolve_callable (response : Producer) (descriptor_index : Z) : M Producer :=
  match response with
  | PCallable f => resolve_callable (f descriptor_index) descriptor_index
  | PBound m => call_bound m descriptor_index
  | PNone => mret PNone
  | PBytes b => mret (PBytes b)
  end.

Definition handle_generic_get_descriptor_request (r : USBControlRequest) : M unit :=
  let descriptor_type := value_high r in
  let descriptor_index := value_low r in
  d ← get_self;
  let response := default PNone (descriptors d !! descriptor_type) in
  response ← resolve_callable response descriptor_index;
  match response with
  | PBytes (b0 :: b') =>
      let response_length :=
        Z.min (Z.of_N (req_length r)) (Z.of_nat (length (b0 :: b'))) in
      request_reply r (slice_to response_length (b0 :: b'))
  | _ => request_stall r
  end.

(** ** [USBDevice]: the standard request handlers *)

Definition handle_get_status_request (r : USBControlRequest) : M unit :=
  request_reply r [0x03; 0x00].

Definition handle_clear_feature_request (r : USBControlRequest) : M unit :=
  request_acknowledge r false.

Definition handle_set_feature_request (r : USBControlRequest) : M unit :=
  request_stall r.

Definition handle_set_address_request (r : USBControlRequest) : M unit :=
  request_acknowledge r true;;
  set_address (req_value r) false.

Definition handle_get_descriptor_request (r : USBControlRequest) : M unit :=
  handle_generic_get_descriptor_request r.

Definition handle_set_descriptor_request (r : USBControlRequest) : M unit :=
  request_stall r.

(** [config_index.to_bytes(1, byteorder='little')]. *)
Definition to_bytes_1_little (z : Z) : M bytes :=
  if byte_okb z then mret [z] else mthrow OverflowError.

Definition handle_get_configuration_request (r : USBControlRequest) : M unit :=
  d ← get_self;
  match configuration d with
  | None => request_reply r [0x00]
  | Some c =>
      let config_index := cfg_number c in
      b ← to_bytes_1_little config_index;
      request_reply r b
  end.

Definition handle_set_configuration_request (r : USBControlRequest) : M unit :=
  (if decide (req_value r = 0) then
     modify_self (with_configuration None);;
     request_acknowledge r false
   else
     try_except_KeyError
       (d ← get_self;
        match configurations d !! req_value r with
        | Some c =>
            modify_self (with_configuration (Some c));;
            request_acknowledge r false
        | None => mthrow KeyError
        end)
       (request_stall r));;
  d ← get_self;
  backend_call (BackendConfigured (configuration d)).

Definition handle_get_interface_request (r : USBControlRequest) : M unit :=
  d ← get_self;
  match configuration d with
  | Some c =>
      if bool_decide (index_low r ∈ cfg_interfaces c) then request_reply r [0x00]
      else request_stall r
  | None => request_stall r
  end.

Definition handle_set_interface_request (r : USBControlRequest) : M unit :=
  if decide (index_low r = 0) then request_acknowledge r false
  else request_stall r.

Definition handle_synch_frame_request (r : USBControlRequest) : M unit :=
  request_acknowledge r false.

(** The bindings the decorators [@standard_request_handler(number=...)]
    and [@to_device] declare on [USBDevice], in declaration order. *)
Definition standard_to_device (number : Z) (m : HandlerMethod) : HandlerBinding :=
  {| hb_type := Some STANDARD; hb_recipient := Some DEVICE;
     hb_direction := None; hb_number := Some number; hb_method := m |}.

Definition USBDevice_request_handler_methods : list HandlerBinding := [
  standard_to_device USBStandardRequests.GET_STATUS handle_get_status_request_m;
  standard_to_device USBStandardRequests.CLEAR_FEATURE handle_clear_feature_request_m;
  standard_to_device USBStandardRequests.SET_FEATURE handle_set_feature_request_m;
  standard_to_device USBStandardRequests.SET_ADDRESS handle_set_address_request_m;
  standard_to_device USBStandardRequests.GET_DESCRIPTOR handle_get_descriptor_request_m;
  standard_to_device USBStandardRequests.SET_DESCRIPTOR handle_set_descriptor_request_m;
  standard_to_device USBStandardRequests.GET_CONFIGURATION handle_get_configuration_request_m;
  standard_to_device USBStandardRequests.SET_CONFIGURATION handle_set_configuration_request_m;
  standard_to_device USBStandardRequests.GET_INTERFACE handle_get_interface_request_m;
  standard_to_device USBStandardRequests.SET_INTERFACE handle_set_interface_request_m;
  standard_to_device USBStandardRequests.SYNCH_FRAME handle_synch_frame_request_m
].

(** ** Dispatch *)

(** Modelled from the spec: the matching rule of the absent [request]
    module, "a binding matches a request iff every non-wildcard field of
    the binding equals the corresponding field of the request". *)
Definition field_matches {A} `{EqDecision A} (rule : option A) (x : A) : bool :=
  match rule with
  | None => true
  | Some y => bool_decide (y = x)
  end.

Definition binding_matches (r : USBControlRequest) (b : HandlerBinding) : bool :=
  field_matches (hb_type b) (req_type r)
  && field_matches (hb_recipient b) (req_recipient r)
  && field_matches (hb_direction b) (req_direction r)
  && field_matches (hb_number b) (req_number r).

(** No binding of the node or below it matches the request. *)
Fixpoint node_declines (r : USBControlRequest) (t : RequestHandlerNode) : bool :=
  match t with
  | HandlerNode own subordinates =>
      forallb (fun b => negb (binding_matches r b)) own
      && forallb (node_declines r) subordinates
  end.

Section Dispatch.

(** The handlers a concrete device brings besides the standard ones. *)
Variable user_handler : nat -> USBControlRequest -> M unit.

Definition call_handler (m : HandlerMethod) (r : USBControlRequest) : M unit :=
  match m with
  | handle_get_status_request_m => handle_get_status_request r
  | handle_clear_feature_request_m => handle_clear_feature_request r
  | handle_set_feature_request_m => handle_set_feature_request r
  | handle_set_address_request_m => handle_set_address_request r
  | handle_get_descriptor_request_m => handle_get_descriptor_request r
  | handle_set_descriptor_request_m => handle_set_descriptor_request r
  | handle_get_configuration_request_m => handle_get_configuration_request r
  | handle_set_configuration_request_m => handle_set_configuration_request r
  | handle_get_interface_request_m => handle_get_interface_request r
  | handle_set_interface_request_m => handle_set_interface_request r
  | handle_synch_frame_request_m => handle_synch_frame_request r
  | user_handler_m id => user_handler id r
  end.

(** Modelled from the spec: [USBRequestHandler.handle_request] of the
    absent [request] module: ask the handler's own registry for a match
    and, if found, invoke it (the first registered wins) and stop; else
    query the subordinates "in the same pattern, depth-first" until one
    claims the request.  The result tells whether a handler was found. *)
Fixpoint node_handle_request (t : RequestHandlerNode) (r : USBControlRequest)
    : M bool :=
  match t with
  | HandlerNode own subordinates =>
      match List.find (binding_matches r) own with
      | Some b => call_handler (hb_method b) r;; mret true
      | None =>
          (fix ask (l : list RequestHandlerNode) : M bool :=
             match l with
             | [] => mret false
             | s :: l' =>
                 handled ← node_handle_request s r;
                 if handled : bool then mret true else ask l'
             end) subordinates
      end
  end.

(** [_request_handlers] and [_get_subordinate_handlers]: the device's own
    methods, and every configuration of the [configurations] dictionary.
    The configurations come in key order here and in insertion order in
    the source; the two differ only in which of several configurations
    that all claim a request is asked first. *)
Definition _request_handlers (d : USBBaseDevice) : list HandlerBinding :=
  _request_handler_methods d.

Definition _get_subordinate_handlers (d : USBBaseDevice) : list RequestHandlerNode :=
  cfg_handlers <$> (map_to_list (configurations d)).*2.

Definition USBRequestHandler_handle_request (r : USBControlRequest) : M bool :=
  d ← get_self;
  node_handle_request
    (HandlerNode (_request_handlers d) (_get_subordinate_handlers d)) r.

Definition handle_request (r : USBControlRequest) : M bool :=
  handled ← USBRequestHandler_handle_request r;
  (if negb handled then
     _add_request_suggestion r;;
     stall 0 OUT
   else mret tt);;
  mret handled.

End Dispatch.

(** ** Emulation *)

Section Emulation.

(** What happens inside the [i]-th [self.backend.service_irqs()] (the
    backend calling the device's event handlers back) and during the
    [i]-th [await asyncio.sleep(0)] (the other coroutines taking their
    turn); either can raise. *)
Variable backend_service_irqs : nat -> M unit.
Variable other_coroutines : nat -> M unit.

(** The [while True:] loop of [run], from iteration [i] on. *)
Fixpoint run_loop (fuel : nat) (i : nat) : M unit :=
  match fuel with
  | O => unfinished
  | S fuel' =>
      backend_call BackendServiceIrqs;;
      backend_service_irqs i;;
      other_coroutines i;;
      run_loop fuel' (S i)
  end.

Definition run (fuel : nat) : M unit :=
  d ← get_self;
  (* an empty [configurations] is only logged *)
  match backend d with
  | None => connect
  | Some _ => mret tt
  end;;
  run_loop fuel 0%nat.

Definition run_with (fuel : nat) : M unit :=
  run fuel.

End Emulation.

(** [emulate]; [run_with] is the method it calls between connecting and
    disconnecting. *)
Definition emulate (run_with : M unit) : M unit :=
  connect;;
  try_finally (try_except_KeyboardInterrupt run_with) disconnect.

(** ** A concrete device *)

(** The dataclass with its field defaults, but for the device class and
    the vendor ID its constructor is given. *)
Definition device_with (class vendor : Z) : USBBaseDevice :=
  {| name := "generic device";
     device_class := class;
     device_subclass := 0;
     protocol_revision_number := 0;
     max_packet_size_ep0 := 64;
     vendor_id := vendor;
     product_id := 0x4653;
     manufacturer_string := "FaceDancer";
     product_string := "Generic USB Device";
     serial_number_string := "S/N 3420E";
     supported_languages := [LanguageIDs.ENGLISH_US];
     device_revision := 0;
     usb_spec_version := 0x0002;
     descriptors := ∅;
     configurations := ∅;
     backend := None;
     strings := [];
     address := 0;
     configuration := None;
     _request_handler_methods := [];
     _suggested_requests := ∅;
     _suggested_request_metadata := ∅;
     trace := [] |}.

Definition generic_device : USBBaseDevice := device_with 0 0x610b.

(** A configuration with one interface and a bulk IN endpoint that
    declares no request handlers of its own. *)
Definition plain_configuration (number : Z) : USBConfiguration :=
  {| cfg_number := number;
     cfg_descriptor := [9; 2; 25; 0; 1; number; 0; 0x80; 250];
     cfg_interfaces := [0];
     cfg_endpoints := [{| ep_number := 1; ep_direction := IN; ep_max_packet_size := 64 |}];
     cfg_handlers := HandlerNode [] [HandlerNode [] [HandlerNode [] []]] |}.

(** A [USBDevice] with configurations 1 and 2, constructed and then
    attached to a backend. *)
Definition usb_device (fields : USBBaseDevice) : USBBaseDevice :=
  with_backend (Some FacedancerUSBApp_new)
    (__post_init__ fields ∅
       (<[2 := plain_configuration 2]> {[1 := plain_configuration 1]})
       USBDevice_request_handler_methods).

Definition example_device : USBBaseDevice := usb_device generic_device.

Definition standard_request (number value : Z) (length : N) : USBControlRequest :=
  {| req_direction := OUT; req_type := STANDARD; req_recipient := DEVICE;
     req_number := number; req_value := value; req_index := 0;
     req_length := length; req_data := [] |}.

Definition vendor_request (number : Z) (length : N) : USBControlRequest :=
  {| req_direction := IN; req_type := VENDOR; req_recipient := DEVICE;
     req_number := number; req_value := 0; req_index := 0;
     req_length := length; req_data := [] |}.

Definition no_user_handler (id : nat) (r : USBControlRequest) : M unit := mret tt.

(** ** Vocabulary of the properties *)

(** The backend calls that send the given packets, in order. *)
Definition sends (endpoint_number : Z) (blocking : bool) (packets : list bytes)
    : list Event :=
  (fun p => BackendSendOnEndpoint endpoint_number p blocking) <$> packets.

(** Every configuration sits under its own number: what
    [instantiate_subordinates] and [add_configuration] maintain. *)
Definition keyed_by_number (cs : gmap Z USBConfiguration) : Prop :=
  map_Forall (fun (k : Z) (c : USBConfiguration) => cfg_number c = k) cs.

(** The fields of a USB 2.0 device descriptor. *)
Record DeviceDescriptor := {
  bLength : Z;
  bDescriptorType : Z;
  bcdUSB : Z;
  bDeviceClass : Z;
  bDeviceSubClass : Z;
  bDeviceProtocol : Z;
  bMaxPacketSize0 : Z;
  idVendor : Z;
  idProduct : Z;
  bcdDevice : Z;
  iManufacturer : Z;
  iProduct : Z;
  iSerialNumber : Z;
  bNumConfigurations : Z
}.

(** Reading the 18 bytes back, field by field, in the byte order
    [get_descriptor] writes them: the vendor and product IDs low byte
    first, the spec version and the device revision high byte first. *)
Definition decode_device_descriptor (b : bytes) : option DeviceDescriptor :=
  match b with
  | [len; type; usb_hi; usb_lo; class; subclass; protocol; max_packet;
     vendor_lo; vendor_hi; product_lo; product_hi; revision_hi; revision_lo;
     manufacturer; product; serial; count] =>
      Some {| bLength := len;
              bDescriptorType := type;
              bcdUSB := usb_hi * 256 + usb_lo;
              bDeviceClass := class;
              bDeviceSubClass := subclass;
              bDeviceProtocol := protocol;
              bMaxPacketSize0 := max_packet;
              idVendor := vendor_lo + vendor_hi * 256;
              idProduct := product_lo + product_hi * 256;
              bcdDevice := revision_hi * 256 + revision_lo;
              iManufacturer := manufacturer;
              iProduct := product;
              iSerialNumber := serial;
              bNumConfigurations := count |}
  | _ => None
  end.

Definition fits_16_bits (z : Z) : Prop := 0 <= z < 65536.

(** How often a kind of event occurs in a trace. *)
Definition count_events (kind : Event -> bool) (t : list Event) : nat :=
  length (List.filter kind t).

Definition is_disconnect (e : Event) : bool :=
  match e with BackendDisconnect => true | _ => false end.

Definition is_stall_of_endpoint_0 (e : Event) : bool :=
  match e with
  | BackendStallEndpoint n _ => bool_decide (n = 0)
  | _ => false
  end.

(** A backend whose third [service_irqs] is cut short by Ctrl-C, one that
    fails with an I/O error there instead, and coroutines that do
    nothing. *)
Definition interrupted_at_third_poll (i : nat) : M unit :=
  if decide (i = 2%nat) then mthrow KeyboardInterrupt else mret tt.

Definition failing_at_third_poll (i : nat) : M unit :=
  if decide (i = 2%nat) then mthrow (OtherException "USBError") else mret tt.

Definition idle_coroutines (i : nat) : M unit := mret tt.

(** The example [USBDevice] before any backend is attached. *)
Definition detached_device : USBBaseDevice :=
  with_backend None example_device.

(** The example device with one more descriptor, of type [0x21], behind
    a chain two callables deep. *)
Definition chained_producer : Producer :=
  PCallable (fun _ =>
    PCallable (fun i => PBytes [10; 0x21; i; 3; 4; 5; 6; 7; 8; 9])).

Definition chained_device : USBBaseDevice :=
  with_descriptors (<[0x21 := chained_producer]> (descriptors example_device))
    example_device.

(** ** [USBBaseDevice]: data events *)

(** [handle_unexpected_data_received] and
    [handle_unexpected_data_requested] only write to the log. *)
Definition handle_unexpected_data_received (endpoint_number : Z) (data : bytes)
    : M unit :=
  mret tt.

Definition handle_unexpected_data_requested (endpoint_number : Z) : M unit :=
  mret tt.

Section DataEvents.

(** The event handlers of the active configuration (the [configuration]
    module is not part of the sources at hand): whatever they do, they
    are reached only through the device methods below. *)
Variable configuration_handle_data_received :
  USBConfiguration -> USBEndpoint -> bytes -> M unit.
Variable configuration_handle_data_requested :
  USBConfiguration -> USBEndpoint -> M unit.
Variable configuration_handle_buffer_empty :
  USBConfiguration -> USBEndpoint -> M unit.

Definition handle_data_received (endpoint : USBEndpoint) (data : bytes) : M unit :=
  d ← get_self;
  match configuration d with
  | Some c => configuration_handle_data_received c endpoint data
  | None => handle_unexpected_data_received (ep_number endpoint) data
  end.

Definition handle_data_requested (endpoint : USBEndpoint) : M unit :=
  d ← get_self;
  match configuration d with
  | Some c => configuration_handle_data_requested c endpoint
  | None => handle_unexpected_data_requested (ep_number endpoint)
  end.

Definition handle_buffer_empty (endpoint : USBEndpoint) : M unit :=
  d ← get_self;
  match configuration d with
  | Some c => configuration_handle_buffer_empty c endpoint
  | None => mret tt
  end.

Definition handle_nak (ep_num : Z) : M unit :=
  endpoint ← get_endpoint ep_num IN;
  match endpoint with
  | Some e => handle_data_requested e
  | None => handle_unexpected_data_requested ep_num
  end.

Definition handle_buffer_available (ep_num : Z) : M unit :=
  endpoint ← get_endpoint ep_num IN;
  match endpoint with
  | Some e => handle_buffer_empty e
  | None => mret tt
  end.

Definition handle_data_available (ep_num : Z) (data : bytes) : M unit :=
  endpoint ← get_endpoint ep_num OUT;
  match endpoint with
  | Some e => handle_data_received e data
  | None => handle_unexpected_data_received ep_num data
  end.

End DataEvents.

(** ** More vocabulary *)

(** The three ways a handler ends a control transaction. *)
Definition is_terminal_action (e : Event) : bool :=
  match e with
  | RequestReply _ | RequestAcknowledge _ | RequestStall => true
  | _ => false
  end.

Definition is_backend_connect (e : Event) : bool :=
  match e with BackendConnect _ => true | _ => false end.

(** The language IDs of a string descriptor zero, read back from the
    bytes after its two-byte header, low byte first. *)
Fixpoint decode_languages (b : bytes) : list Z :=
  match b with
  | lo :: hi :: rest => (lo + hi * 256) :: decode_languages rest
  | _ => []
  end.

(** A packet is full when it has [packet_size] bytes. *)
Definition all_but_last_full (packet_size : Z) (packets : list bytes) : Prop :=
  forall (i : nat) (p : bytes),
    packets !! i = Some p ->
    (S i < length packets)%nat ->
    Z.of_nat (length p) = packet_size.

(** The example device once configuration 1 is active. *)
Definition configured_device : USBBaseDevice :=
  with_configuration (Some (plain_configuration 1)) example_device.

(** Every suggested signature has its metadata: what
    [_print_suggested_requests] relies on when it indexes the metadata
    with each suggestion. *)
Definition suggestions_have_metadata (d : USBBaseDevice) : Prop :=
  dom (_suggested_request_metadata d) = _suggested_requests d.

(** The eighteen integers [get_descriptor] hands to [bytearray], given
    the indices of the three strings. *)
Definition descriptor_fields (d : USBBaseDevice) (manufacturer product serial : Z)
    : list Z :=
  [18; 1;
   Z.land (Z.shiftr (usb_spec_version d) 8) 0xff;
   Z.land (usb_spec_version d) 0xff;
   device_class d;
   device_subclass d;
   protocol_revision_number d;
   max_packet_size_ep0 d;
   Z.land (vendor_id d) 0xff;
   Z.land (Z.shiftr (vendor_id d) 8) 0xff;
   Z.land (product_id d) 0xff;
   Z.land (Z.shiftr (product_id d) 8) 0xff;
   Z.land (Z.shiftr (device_revision d) 8) 0xff;
   Z.land (device_revision d) 0xff;
   manufacturer; product; serial;
   Z.of_nat (size (configurations d))].

(** ** Vocabulary of the descriptor round trip *)

(** The device descriptor read as USB 2.0 chapter 9 lays it out: every
    two-byte field ([bcdUSB], [idVendor], [idProduct], [bcdDevice]) low
    byte first. *)
Definition decode_device_descriptor_usb2 (b : bytes) : option DeviceDescriptor :=
  match b with
  | [len; type; usb_lo; usb_hi; class; subclass; protocol; max_packet;
     vendor_lo; vendor_hi; product_lo; product_hi; revision_lo; revision_hi;
     manufacturer; product; serial; count] =>
      Some {| bLength := len;
              bDescriptorType := type;
              bcdUSB := usb_lo + usb_hi * 256;
              bDeviceClass := class;
              bDeviceSubClass := subclass;
              bDeviceProtocol := protocol;
              bMaxPacketSize0 := max_packet;
              idVendor := vendor_lo + vendor_hi * 256;
              idProduct := product_lo + product_hi * 256;
              bcdDevice := revision_lo + revision_hi * 256;
              iManufacturer := manufacturer;
              iProduct := product;
              iSerialNumber := serial;
              bNumConfigurations := count |}
  | _ => None
  end.

(** [strings_get_index] on the string table alone: the index handed out
    and the table afterwards. *)
Definition string_index (s : string) (l : list string) : Z * list string :=
  match list_find (fun x => x = s) l with
  | Some (i, _) => (Z.of_nat i + 1, l)
  | None => (Z.of_nat (length l) + 1, l ++ [s])
  end.

(** The indices [get_descriptor] gets for the manufacturer, product and
    serial number strings, asked for in that order. *)
Definition descriptor_string_indices (d : USBBaseDevice) : list Z :=
  let r1 := string_index (manufacturer_string d) (strings d) in
  let r2 := string_index (product_string d) (snd r1) in
  let r3 := string_index (serial_number_string d) (snd r2) in
  [fst r1; fst r2; fst r3].

(** The dataclass with its field defaults, but for the vendor ID and the
    device revision its constructor is given. *)
Definition device_with_revision (vendor revision : Z) : USBBaseDevice :=
  {| name := "generic device";
     device_class := 0;
     device_subclass := 0;
     protocol_revision_number := 0;
     max_packet_size_ep0 := 64;
     vendor_id := vendor;
     product_id := 0x4653;
     manufacturer_string := "FaceDancer";
     product_string := "Generic USB Device";
     serial_number_string := "S/N 3420E";
     supported_languages := [LanguageIDs.ENGLISH_US];
     device_revision := revision;
     usb_spec_version := 0x0002;
     descriptors := ∅;
     configurations := ∅;
     backend := None;
     strings := [];
     address := 0;
     configuration := None;
     _request_handler_methods := [];
     _suggested_requests := ∅;
     _suggested_request_metadata := ∅;
     trace := [] |}.

(** The GET_DESCRIPTOR request a host sends for a descriptor type and
    index: standard, to the device, device-to-host, the type in the high
    byte of the value and the index in the low byte. *)
Definition get_descriptor_request (descriptor_type descriptor_index : Z)
    (length : N) : USBControlRequest :=
  {| req_direction := IN; req_type := STANDARD; req_recipient := DEVICE;
     req_number := USBStandardRequests.GET_DESCRIPTOR;
     req_value := descriptor_type * 256 + descriptor_index;
     req_index := 0; req_length := length; req_data := [] |}.

(** * Properties *)

(** ** Bookkeeping on the device record and the monad *)

Lemma with_trace_same (d : USBBaseDevice) : with_trace (trace d) d = d.
Proof. by destruct d. Qed.

Lemma with_trace_twice (t t' : list Event) (d : USBBaseDevice) :
  with_trace t' (with_trace t d) = with_trace t' d.
Proof. done. Qed.

Lemma backend_call_attached (e : Event) (d : USBBaseDevice) (b : FacedancerUSBApp) :
  backend d = Some b ->
  backend_call e d = (Returns tt, with_trace (trace d ++ [e]) d).
Proof. intros Hb. unfold backend_call, mbind, M_bind, get_self. simpl. by rewrite Hb. Qed.

Lemma backend_call_detached (e : Event) (d : USBBaseDevice) :
  backend d = None -> backend_call e d = (Raises AttributeError, d).
Proof. intros Hb. unfold backend_call, mbind, M_bind, get_self. simpl. by rewrite Hb. Qed.

Lemma bind_returns {A B} (m : M A) (f : A -> M B) (d d' : USBBaseDevice) (a : A) :
  m d = (Returns a, d') -> (m ≫= f) d = f a d'.
Proof. intros H. unfold mbind, M_bind. by rewrite H. Qed.

Lemma bind_raises {A B} (m : M A) (f : A -> M B) (d d' : USBBaseDevice) (e : Exception) :
  m d = (Raises e, d') -> (m ≫= f) d = (Raises e, d').
Proof. intros H. unfold mbind, M_bind. by rewrite H. Qed.

(** ** Packets of [_send_in_packets] *)

Lemma ceil_div_step (L P : Z) :
  0 < P -> 0 < L ->
  (L + P - 1) / P = 1 + (Z.max 0 (L - P) + P - 1) / P.
Proof.
  intros HP HL. destruct (Z.le_gt_cases L P) as [Hle | Hgt].
  - rewrite Z.max_l by lia.
    rewrite (Z.div_small (0 + P - 1) P) by lia.
    symmetry. apply (Z.div_unique_pos _ _ _ (L - 1)); lia.
  - rewrite Z.max_r by lia.
    replace (L + P - 1) with ((L - P + P - 1) + 1 * P) by lia.
    rewrite Z.div_add by lia. lia.
Qed.

Lemma send_packets_loop_spec (b : FacedancerUSBApp) (n P : Z) (blocking : bool) :
  0 < P ->
  forall (fuel : nat) (data : bytes) (d : USBBaseDevice),
    backend d = Some b ->
    (length data <= fuel)%nat ->
    exists packets : list bytes,
      send_packets_loop fuel n data P blocking d
        = (Returns tt, with_trace (trace d ++ sends n blocking packets) d)
      /\ concat packets = data
      /\ Forall (fun p => 0 < Z.of_nat (length p) <= P) packets
      /\ Z.of_nat (length packets) = (Z.of_nat (length data) + P - 1) / P.
Proof.
  intros HP. induction fuel as [| fuel IH]; intros data d Hb Hlen.
  - destruct data as [| x xs]; [| simpl in Hlen; lia].
    exists []. simpl. rewrite app_nil_r, with_trace_same.
    repeat split; [constructor |].
    rewrite Z.div_small; lia.
  - destruct data as [| x xs].
    + exists []. simpl. rewrite app_nil_r, with_trace_same.
      repeat split; [constructor |].
      rewrite Z.div_small; lia.
    + cbn [send_packets_loop].
      set (data := x :: xs) in *.
      erewrite bind_returns by (apply (backend_call_attached _ _ b Hb)).
      unfold slice_to, del_slice_to.
      destruct (Z.leb_spec 0 P) as [_ | ?]; [| lia].
      destruct (IH (drop (Z.to_nat P) data)
                  (with_trace (trace d ++
                     [BackendSendOnEndpoint n (take (Z.to_nat P) data) blocking]) d))
        as (packets & Hrun & Hcat & Hall & Hcount).
      { done. }
      { rewrite length_drop. subst data. simpl in *. lia. }
      exists (take (Z.to_nat P) data :: packets).
      rewrite Hrun. unfold sends. rewrite fmap_cons.
      rewrite with_trace_twice. cbn [trace with_trace]. rewrite <- app_assoc.
      split; [done |]. split; [by cbn [concat]; rewrite Hcat, take_drop |].
      split.
      * constructor; [| done].
        rewrite length_take. subst data. simpl length. lia.
      * rewrite length_drop in Hcount. rewrite length_cons.
        rewrite (ceil_div_step (Z.of_nat (length data)) P) by (subst data; simpl length; lia).
        replace (Z.max 0 (Z.of_nat (length data) - P))
          with (Z.of_nat (length data - Z.to_nat P)) by lia.
        lia.
Qed.

(** With a [packet_size] that is not positive the loop never gets to the
    end of a non-empty payload, whatever the fuel. *)
Lemma send_packets_loop_never_ends (b : FacedancerUSBApp) (n P : Z) (blocking : bool) :
  P <= 0 ->
  forall (fuel : nat) (data : bytes) (d : USBBaseDevice),
    backend d = Some b -> data <> [] ->
    fst (send_packets_loop fuel n data P blocking d) = Unfinished.
Proof.
  intros HP. induction fuel as [| fuel IH]; intros data d Hb Hne.
  - by destruct data.
  - destruct data as [| x xs]; [done |].
    cbn [send_packets_loop].
    set (data := x :: xs) in *.
    erewrite bind_returns by (apply (backend_call_attached _ _ b Hb)).
    apply IH; [done |].
    intros Hnil. apply (f_equal length) in Hnil.
    unfold del_slice_to in Hnil.
    destruct (Z.leb_spec 0 P); rewrite length_drop in Hnil;
      subst data; simpl length in Hnil; lia.
Qed.

(** C5: with a positive packet size, [_send_in_packets] hands the backend
    [ceil(L/P)] packets when the payload has [L > 0] bytes, each of at
    most [P] bytes and together, in order, the payload; and exactly one
    empty packet when the payload is empty. *)
Theorem send_in_packets_chunks (d : USBBaseDevice) (b : FacedancerUSBApp)
    (N : Z) (data : bytes) (P : Z) (blocking : bool) :
  backend d = Some b ->
  0 < P ->
  exists packets : list bytes,
    _send_in_packets N data P blocking d
      = (Returns tt, with_trace (trace d ++ sends N blocking packets) d)
    /\ concat packets = data
    /\ Forall (fun p => Z.of_nat (length p) <= P) packets
    /\ (data <> [] ->
        Z.of_nat (length packets) = (Z.of_nat (length data) + P - 1) / P)
    /\ (data = [] -> packets = [[]]).
Proof.
  intros Hb HP. destruct data as [| x xs].
  - exists [[]]. unfold _send_in_packets.
    rewrite (backend_call_attached _ _ b Hb).
    repeat split; try done.
    constructor; [simpl; lia | constructor].
  - destruct (send_packets_loop_spec b N P blocking HP
                (length (x :: xs)) (x :: xs) d Hb) as (packets & Hrun & Hcat & Hall & Hcount).
    { done. }
    exists packets. unfold _send_in_packets. rewrite Hrun.
    repeat split; try done.
    eapply Forall_impl; [exact Hall |]. simpl. lia.
Qed.

Lemma send_in_packets_chunks_witness :
  exists packets : list bytes,
    _send_in_packets 1 [10; 20; 30; 40; 50] 2 false example_device
      = (Returns tt,
         with_trace (trace example_device ++ sends 1 false packets) example_device)
    /\ concat packets = [10; 20; 30; 40; 50]
    /\ Forall (fun p => Z.of_nat (length p) <= 2) packets
    /\ ([10; 20; 30; 40; 50] <> [] ->
        Z.of_nat (length packets)
          = (Z.of_nat (length [10; 20; 30; 40; 50]) + 2 - 1) / 2)
    /\ ([10; 20; 30; 40; 50] = [] -> packets = [[]]).
Proof.
  apply (send_in_packets_chunks example_device FacedancerUSBApp_new);
    [reflexivity | lia].
Defined.

Example send_in_packets_five_by_two :
  trace (snd (_send_in_packets 1 [10; 20; 30; 40; 50] 2 false example_device))
  = [BackendSendOnEndpoint 1 [10; 20] false;
     BackendSendOnEndpoint 1 [30; 40] false;
     BackendSendOnEndpoint 1 [50] false].
Proof. reflexivity. Qed.

(** ** [send] *)

(** C10: on a device with no active configuration, [send] on a non-zero
    endpoint returns without raising and leaves the device, trace
    included, as it was; on endpoint 0 the payload goes to the backend in
    one [send_on_endpoint] call, whatever the configuration. *)
Theorem send_unconfigured_noop (d : USBBaseDevice) (endpoint_number : Z)
    (data : bytes) (blocking : bool) :
  endpoint_number <> 0 ->
  configuration d = None ->
  send endpoint_number data blocking d = (Returns tt, d)
  /\ (forall (d0 : USBBaseDevice) (b : FacedancerUSBApp),
        backend d0 = Some b ->
        send 0 data blocking d0
          = (Returns tt,
             with_trace (trace d0 ++ [BackendSendOnEndpoint 0 data blocking]) d0)).
Proof.
  intros Hne Hcfg. split.
  - unfold send. destruct (decide (endpoint_number = 0)) as [? | _]; [done |].
    unfold mbind, M_bind, get_self. by rewrite Hcfg.
  - intros d0 b Hb. unfold send. simpl. by apply (backend_call_attached _ _ b).
Qed.

Lemma send_unconfigured_noop_witness :
  send 3 [1; 2; 3] false example_device = (Returns tt, example_device)
  /\ (forall (d0 : USBBaseDevice) (b : FacedancerUSBApp),
        backend d0 = Some b ->
        send 0 [1; 2; 3] false d0
          = (Returns tt,
             with_trace (trace d0 ++ [BackendSendOnEndpoint 0 [1; 2; 3] false]) d0)).
Proof.
  apply (send_unconfigured_noop example_device 3 [1; 2; 3] false);
    [lia | reflexivity].
Defined.

(** ** The device state machine *)

(** C1, as amended: with a backend attached, the SET_ADDRESS handler
    first acknowledges the transaction (blocking), the address still
    being the old one at that point, and only then sets the address
    field to the requested value and calls the backend's [set_address]
    once, with the defer flag false. *)
Theorem handle_set_address_request_ack_first (d : USBBaseDevice)
    (b : FacedancerUSBApp) (r : USBControlRequest) :
  backend d = Some b ->
  request_acknowledge r true d
    = (Returns tt, with_trace (trace d ++ [RequestAcknowledge true]) d)
  /\ address (with_trace (trace d ++ [RequestAcknowledge true]) d) = address d
  /\ handle_set_address_request r d
     = set_address (req_value r) false
         (with_trace (trace d ++ [RequestAcknowledge true]) d)
  /\ exists d' : USBBaseDevice,
       handle_set_address_request r d = (Returns tt, d')
       /\ address d' = req_value r
       /\ trace d'
          = trace d ++ [RequestAcknowledge true;
                        BackendSetAddress (req_value r) false].
Proof.
  intros Hb. repeat split.
  eexists. unfold handle_set_address_request, set_address.
  unfold request_acknowledge, log, modify_self, mbind, M_bind. simpl.
  rewrite (backend_call_attached _ _ b) by done. simpl.
  repeat split. by rewrite <- app_assoc.
Qed.

Lemma handle_set_address_request_ack_first_witness :
  request_acknowledge (standard_request 5 5 0) true example_device
    = (Returns tt,
       with_trace (trace example_device ++ [RequestAcknowledge true]) example_device)
  /\ address (with_trace (trace example_device ++ [RequestAcknowledge true])
                example_device) = address example_device
  /\ handle_set_address_request (standard_request 5 5 0) example_device
     = set_address (req_value (standard_request 5 5 0)) false
         (with_trace (trace example_device ++ [RequestAcknowledge true])
            example_device)
  /\ exists d' : USBBaseDevice,
       handle_set_address_request (standard_request 5 5 0) example_device
         = (Returns tt, d')
       /\ address d' = req_value (standard_request 5 5 0)
       /\ trace d'
          = trace example_device
            ++ [RequestAcknowledge true;
                BackendSetAddress (req_value (standard_request 5 5 0)) false].
Proof.
  apply (handle_set_address_request_ack_first example_device FacedancerUSBApp_new).
  reflexivity.
Defined.

(** C1 as stated fails: handling SET_ADDRESS(5) on the unaddressed
    example device acknowledges and sets the address to 5, but the one
    backend [set_address] call of the transaction carries defer = false;
    no call with defer = true is made. *)
Lemma handle_set_address_request_defer_not_set :
  address example_device = 0
  /\ exists d' : USBBaseDevice,
       handle_set_address_request (standard_request 5 5 0) example_device
         = (Returns tt, d')
       /\ address d' = 5
       /\ trace d' = [RequestAcknowledge true; BackendSetAddress 5 false]
       /\ ~ (exists a : Z, BackendSetAddress a true ∈ trace d').
Proof.
  split; [reflexivity |]. eexists. split; [reflexivity |].
  split; [reflexivity |]. split; [reflexivity |].
  intros (a & Hin). cbn in Hin.
  apply elem_of_cons in Hin as [Hin | Hin]; [discriminate |].
  apply elem_of_cons in Hin as [Hin | Hin]; [discriminate |].
  by apply elem_of_nil in Hin.
Qed.

(** C3: a SET_CONFIGURATION whose value is neither zero nor a key of
    [configurations] stalls the request, changes nothing in the device
    (the active configuration, or the lack of one, in particular), and
    then calls the backend's [configured] with that same configuration. *)
Theorem set_configuration_unknown_stalls (d : USBBaseDevice)
    (b : FacedancerUSBApp) (r : USBControlRequest) :
  backend d = Some b ->
  req_value r <> 0 ->
  configurations d !! req_value r = None ->
  exists d' : USBBaseDevice,
    handle_set_configuration_request r d = (Returns tt, d')
    /\ configuration d' = configuration d
    /\ trace d' = trace d ++ [RequestStall; BackendConfigured (configuration d)]
    /\ d' = with_trace (trace d') d.
Proof.
  intros Hb Hnz Hkey. eexists.
  unfold handle_set_configuration_request.
  destruct (decide (req_value r = 0)) as [? | _]; [done |].
  unfold try_except_KeyError, mbind, M_bind, get_self. simpl.
  rewrite Hkey. simpl.
  rewrite (backend_call_attached _ _ b) by done. simpl.
  repeat split. by rewrite <- app_assoc.
Qed.

Lemma set_configuration_unknown_stalls_witness :
  exists d' : USBBaseDevice,
    handle_set_configuration_request (standard_request 9 7 0) example_device
      = (Returns tt, d')
    /\ configuration d' = configuration example_device
    /\ trace d'
       = trace example_device
         ++ [RequestStall; BackendConfigured (configuration example_device)]
    /\ d' = with_trace (trace d') example_device.
Proof.
  apply (set_configuration_unknown_stalls example_device FacedancerUSBApp_new
           (standard_request 9 7 0)); [reflexivity | discriminate | reflexivity].
Defined.

(** The same holds when a configuration is active: it stays active. *)
Example set_configuration_unknown_keeps_active :
  let d := with_configuration (Some (plain_configuration 1)) example_device in
  let '(o, d') := handle_set_configuration_request (standard_request 9 7 0) d in
  o = Returns tt
  /\ configuration d' = Some (plain_configuration 1)
  /\ trace d' = [RequestStall; BackendConfigured (Some (plain_configuration 1))].
Proof. vm_compute. done. Qed.

(** C8: SET_CONFIGURATION with value 0 leaves the device with no active
    configuration and acknowledges the request, whatever the device state
    was; the backend, when one is attached, is then told of the empty
    configuration. *)
Theorem set_configuration_zero_deconfigures (d : USBBaseDevice)
    (r : USBControlRequest) :
  req_value r = 0 ->
  exists (o : Outcome unit) (d' : USBBaseDevice),
    handle_set_configuration_request r d = (o, d')
    /\ configuration d' = None
    /\ address d' = address d
    /\ trace d'
       = trace d ++ RequestAcknowledge false
                    :: match backend d with
                       | Some _ => [BackendConfigured None]
                       | None => []
                       end
    /\ (forall b : FacedancerUSBApp, backend d = Some b -> o = Returns tt).
Proof.
  intros Hz. unfold handle_set_configuration_request.
  destruct (decide (req_value r = 0)) as [_ | ?]; [| done].
  unfold request_acknowledge, log, modify_self, mbind, M_bind, get_self. simpl.
  destruct (backend d) as [b |] eqn:Hb.
  - rewrite (backend_call_attached _ _ b) by done.
    do 2 eexists. split; [reflexivity |]. simpl.
    repeat split. by rewrite <- app_assoc.
  - rewrite backend_call_detached by done.
    do 2 eexists. split; [reflexivity |]. simpl. repeat split. done.
Qed.

Lemma set_configuration_zero_deconfigures_witness :
  exists (o : Outcome unit) (d' : USBBaseDevice),
    handle_set_configuration_request (standard_request 9 0 0)
      (with_configuration (Some (plain_configuration 2))
         (with_address 5 example_device)) = (o, d')
    /\ configuration d' = None
    /\ address d' = 5
    /\ trace d' = [RequestAcknowledge false; BackendConfigured None]
    /\ (forall b : FacedancerUSBApp,
          backend (with_configuration (Some (plain_configuration 2))
                     (with_address 5 example_device)) = Some b ->
          o = Returns tt).
Proof.
  apply (set_configuration_zero_deconfigures
           (with_configuration (Some (plain_configuration 2))
              (with_address 5 example_device))
           (standard_request 9 0 0)).
  reflexivity.
Defined.

(** ** Descriptors *)

Lemma keyed_by_number_empty : keyed_by_number ∅.
Proof. intros k c H. by rewrite lookup_empty in H. Qed.

Lemma add_configuration_keyed (c : USBConfiguration) (d : USBBaseDevice) :
  keyed_by_number (configurations d) ->
  keyed_by_number (configurations (snd (add_configuration c d))).
Proof.
  intros Hd k c' H. simpl in H.
  destruct (decide (cfg_number c = k)) as [<- | Hne].
  - rewrite lookup_insert_eq in H. by inversion H.
  - rewrite lookup_insert_ne in H by done. by apply Hd.
Qed.

(** C6: [get_configuration_descriptor] on index [i] returns the
    descriptor of the configuration registered under [i + 1], which is
    the configuration whose number is [i + 1]; index 0 goes to
    configuration 1 and index 1 to configuration 2. *)
Theorem get_configuration_descriptor_off_by_one (d : USBBaseDevice) :
  keyed_by_number (configurations d) ->
  (forall (i : Z) (c : USBConfiguration),
     configurations d !! (i + 1) = Some c ->
     cfg_number c = i + 1
     /\ get_configuration_descriptor i d = (Returns (cfg_descriptor c), d))
  /\ (forall c : USBConfiguration,
        configurations d !! 1 = Some c ->
        cfg_number c = 1
        /\ get_configuration_descriptor 0 d = (Returns (cfg_descriptor c), d))
  /\ (forall c : USBConfiguration,
        configurations d !! 2 = Some c ->
        cfg_number c = 2
        /\ get_configuration_descriptor 1 d = (Returns (cfg_descriptor c), d))
  /\ (forall i : Z,
        configurations d !! (i + 1) = None ->
        get_configuration_descriptor i d = (Raises KeyError, d)).
Proof.
  intros Hkeys.
  assert (Hgen : forall (i : Z) (c : USBConfiguration),
             configurations d !! (i + 1) = Some c ->
             cfg_number c = i + 1
             /\ get_configuration_descriptor i d = (Returns (cfg_descriptor c), d)).
  { intros i c Hc. split; [by apply Hkeys |].
    unfold get_configuration_descriptor, mbind, M_bind, get_self. simpl.
    by rewrite Hc. }
  split; [exact Hgen |]. split; [| split].
  - intros c Hc. by apply (Hgen 0).
  - intros c Hc. by apply (Hgen 1).
  - intros i Hnone.
    unfold get_configuration_descriptor, mbind, M_bind, get_self. simpl.
    by rewrite Hnone.
Qed.

Lemma get_configuration_descriptor_off_by_one_witness :
  get_configuration_descriptor 0 example_device
    = (Returns (cfg_descriptor (plain_configuration 1)), example_device)
  /\ get_configuration_descriptor 1 example_device
    = (Returns (cfg_descriptor (plain_configuration 2)), example_device).
Proof.
  assert (Hkeys : keyed_by_number (configurations example_device)).
  { apply (bool_decide_unpack _). vm_compute. exact I. }
  destruct (get_configuration_descriptor_off_by_one example_device Hkeys)
    as (_ & H0 & H1 & _).
  split.
  - by apply (H0 (plain_configuration 1)).
  - by apply (H1 (plain_configuration 2)).
Defined.

Lemma with_strings_same (d : USBBaseDevice) : with_strings (strings d) d = d.
Proof. by destruct d. Qed.

(** The string manager hands out the index of a known string, or the
    next free index, and never disturbs the strings it already holds. *)
Lemma strings_get_index_spec (s : string) (d : USBBaseDevice) :
  exists (i : Z) (l : list string),
    strings_get_index s d = (Returns i, with_strings l d)
    /\ 1 <= i <= Z.of_nat (length (strings d)) + 1
    /\ l !! Z.to_nat (i - 1) = Some s
    /\ strings d `prefix_of` l
    /\ (length l <= length (strings d) + 1)%nat.
Proof.
  unfold strings_get_index, mbind, M_bind, get_self. simpl.
  destruct (list_find (fun x => x = s) (strings d)) as [[i x] |] eqn:Hfind.
  - apply list_find_Some in Hfind as (Hi & -> & _).
    exists (Z.of_nat i + 1), (strings d). rewrite with_strings_same.
    pose proof (lookup_lt_Some _ _ _ Hi).
    repeat split; try lia; try done.
    by replace (Z.to_nat (Z.of_nat i + 1 - 1)) with i by lia.
  - exists (Z.of_nat (length (strings d)) + 1), (strings d ++ [s]).
    repeat split; try lia.
    + replace (Z.to_nat (Z.of_nat (length (strings d)) + 1 - 1))
        with (length (strings d)) by lia.
      by apply list_lookup_middle.
    + by apply prefix_app_r.
    + rewrite length_app. simpl. lia.
Qed.

Lemma byte_okb_true (z : Z) : byte_ok z -> byte_okb z = true.
Proof. unfold byte_ok, byte_okb. intros ?. apply andb_true_intro. split; lia. Qed.

Lemma land_0xff_mod (z : Z) : Z.land z 0xff = z mod 256.
Proof. change 0xff with (Z.ones 8). by rewrite Z.land_ones. Qed.

Lemma byte_ok_land (z : Z) : byte_ok (Z.land z 0xff).
Proof. rewrite land_0xff_mod. unfold byte_ok. apply Z.mod_pos_bound. lia. Qed.

Lemma two_bytes_mod (z : Z) :
  Z.land (Z.shiftr z 8) 0xff * 256 + Z.land z 0xff = z mod 65536.
Proof.
  rewrite !land_0xff_mod, Z.shiftr_div_pow2 by lia.
  change (2 ^ 8) with 256. change 65536 with (256 * 256).
  rewrite Z.rem_mul_r by lia. lia.
Qed.

Lemma two_bytes_exact (z : Z) :
  fits_16_bits z -> Z.land (Z.shiftr z 8) 0xff * 256 + Z.land z 0xff = z.
Proof. intros H. rewrite two_bytes_mod. by apply Z.mod_small. Qed.

Lemma strings_get_index_pure (s : string) (d : USBBaseDevice) :
  strings_get_index s d
  = (Returns (fst (string_index s (strings d))),
     with_strings (snd (string_index s (strings d))) d).
Proof.
  unfold strings_get_index, string_index, mbind, M_bind, get_self. simpl.
  destruct (list_find (fun x => x = s) (strings d)) as [[i x] |]; simpl.
  - by rewrite with_strings_same.
  - done.
Qed.

Lemma string_index_spec (s : string) (l : list string) :
  1 <= fst (string_index s l)
  /\ snd (string_index s l) !! Z.to_nat (fst (string_index s l) - 1) = Some s
  /\ l `prefix_of` snd (string_index s l).
Proof.
  unfold string_index.
  destruct (list_find (fun x => x = s) l) as [[i x] |] eqn:Hfind; simpl.
  - apply list_find_Some in Hfind as (Hi & -> & _).
    split; [lia |]. split; [| done].
    by replace (Z.to_nat (Z.of_nat i + 1 - 1)) with i by lia.
  - split; [lia |]. split; [| by apply prefix_app_r].
    replace (Z.to_nat (Z.of_nat (length l) + 1 - 1)) with (length l) by lia.
    by apply list_lookup_middle.
Qed.

Lemma two_bytes_little_endian (z : Z) :
  fits_16_bits z -> Z.land z 0xff + Z.land (Z.shiftr z 8) 0xff * 256 = z.
Proof. intros H. rewrite Z.add_comm. by apply two_bytes_exact. Qed.

(** C2, as amended: when the class, subclass, protocol and EP0 packet
    size are bytes, the vendor ID and the product ID fit 16 bits, the
    string table gives the manufacturer, product and serial number
    strings indices of at most 255 and there are at most 255
    configurations, [get_descriptor] returns exactly 18 bytes, and
    decoding them per the USB 2.0 layout yields length 18, type 1 and
    the configured class, subclass, protocol, packet size, vendor ID,
    product ID and number of configurations; the three string indices
    point at the manufacturer, product and serial strings of the table.
    Nothing is said of the spec version and the device revision. *)
Theorem get_descriptor_decodes (d : USBBaseDevice) :
  byte_ok (device_class d) ->
  byte_ok (device_subclass d) ->
  byte_ok (protocol_revision_number d) ->
  byte_ok (max_packet_size_ep0 d) ->
  fits_16_bits (vendor_id d) ->
  fits_16_bits (product_id d) ->
  Forall (fun i => i <= 255) (descriptor_string_indices d) ->
  (size (configurations d) <= 255)%nat ->
  exists (b : bytes) (l : list string) (dd : DeviceDescriptor),
    get_descriptor d = (Returns b, with_strings l d)
    /\ length b = 18%nat
    /\ Forall byte_ok b
    /\ decode_device_descriptor_usb2 b = Some dd
    /\ bLength dd = 18
    /\ bDescriptorType dd = 1
    /\ bDeviceClass dd = device_class d
    /\ bDeviceSubClass dd = device_subclass d
    /\ bDeviceProtocol dd = protocol_revision_number d
    /\ bMaxPacketSize0 dd = max_packet_size_ep0 d
    /\ idVendor dd = vendor_id d
    /\ idProduct dd = product_id d
    /\ l !! Z.to_nat (iManufacturer dd - 1) = Some (manufacturer_string d)
    /\ l !! Z.to_nat (iProduct dd - 1) = Some (product_string d)
    /\ l !! Z.to_nat (iSerialNumber dd - 1) = Some (serial_number_string d)
    /\ bNumConfigurations dd = Z.of_nat (size (configurations d)).
Proof.
  intros Hclass Hsub Hproto Hmps Hvid Hpid Hidx Hcfg.
  unfold descriptor_string_indices in Hidx. cbn zeta in Hidx.
  set (r1 := string_index (manufacturer_string d) (strings d)) in *.
  set (r2 := string_index (product_string d) (snd r1)) in *.
  set (r3 := string_index (serial_number_string d) (snd r2)) in *.
  destruct (string_index_spec (manufacturer_string d) (strings d))
    as (Hi1 & Hl1 & Hp1).
  destruct (string_index_spec (product_string d) (snd r1)) as (Hi2 & Hl2 & Hp2).
  destruct (string_index_spec (serial_number_string d) (snd r2))
    as (Hi3 & Hl3 & Hp3).
  fold r1 in Hi1, Hl1, Hp1. fold r2 in Hi2, Hl2, Hp2. fold r3 in Hi3, Hl3, Hp3.
  apply Forall_cons in Hidx as [Hb1 Hidx].
  apply Forall_cons in Hidx as [Hb2 Hidx].
  apply Forall_cons in Hidx as [Hb3 _].
  assert (Hbc : byte_ok (Z.of_nat (size (configurations d)))) by (unfold byte_ok; lia).
  eexists _, (snd r3), _.
  split.
  { unfold get_descriptor.
    unfold mbind at 1, M_bind at 1, get_self at 1. cbn beta iota.
    erewrite bind_returns by apply strings_get_index_pure. fold r1.
    erewrite bind_returns by apply strings_get_index_pure.
    cbn [strings with_strings]. fold r2.
    erewrite bind_returns by apply strings_get_index_pure.
    cbn [strings with_strings]. fold r3.
    unfold bytearray_of. cbn [forallb].
    rewrite !byte_okb_true by (done || apply byte_ok_land || (unfold byte_ok; lia)).
    reflexivity. }
  split; [reflexivity |].
  split.
  { repeat (constructor; [done || apply byte_ok_land || (unfold byte_ok; lia) |]).
    constructor. }
  split; [reflexivity |].
  cbn [bLength bDescriptorType bDeviceClass bDeviceSubClass bDeviceProtocol
       bMaxPacketSize0 idVendor idProduct iManufacturer iProduct
       iSerialNumber bNumConfigurations].
  rewrite !two_bytes_little_endian by done.
  repeat split; try done.
  - eapply prefix_lookup_Some; [| exact Hp3].
    eapply prefix_lookup_Some; [exact Hl1 | exact Hp2].
  - eapply prefix_lookup_Some; [exact Hl2 | exact Hp3].
Qed.

Lemma get_descriptor_decodes_witness :
  exists (b : bytes) (l : list string) (dd : DeviceDescriptor),
    get_descriptor example_device = (Returns b, with_strings l example_device)
    /\ length b = 18%nat
    /\ Forall byte_ok b
    /\ decode_device_descriptor_usb2 b = Some dd
    /\ bLength dd = 18
    /\ bDescriptorType dd = 1
    /\ bDeviceClass dd = device_class example_device
    /\ bDeviceSubClass dd = device_subclass example_device
    /\ bDeviceProtocol dd = protocol_revision_number example_device
    /\ bMaxPacketSize0 dd = max_packet_size_ep0 example_device
    /\ idVendor dd = vendor_id example_device
    /\ idProduct dd = product_id example_device
    /\ l !! Z.to_nat (iManufacturer dd - 1) = Some (manufacturer_string example_device)
    /\ l !! Z.to_nat (iProduct dd - 1) = Some (product_string example_device)
    /\ l !! Z.to_nat (iSerialNumber dd - 1) = Some (serial_number_string example_device)
    /\ bNumConfigurations dd = Z.of_nat (size (configurations example_device)).
Proof.
  apply (get_descriptor_decodes example_device);
    try (unfold byte_ok, fits_16_bits; simpl; lia).
  - vm_compute. repeat constructor; discriminate.
  - vm_compute. lia.
Defined.

Example get_descriptor_of_example_device :
  fst (get_descriptor example_device)
  = Returns [18; 1; 0x00; 0x02; 0; 0; 0; 64; 0x0b; 0x61; 0x53; 0x46; 0; 0; 1; 2; 3; 2].
Proof. reflexivity. Qed.

(** C2 as stated fails: a device constructed with vendor ID [0x10000]
    and device revision [0x0100] (and the default spec version
    [0x0002]) gets an 18-byte descriptor; decoded per the USB 2.0 layout
    its vendor ID is 0, its spec version [0x0200] and its device
    revision [0x0001], none of them the configured value. *)
Lemma get_descriptor_not_decoded_back :
  exists (b : bytes) (d' : USBBaseDevice) (dd : DeviceDescriptor),
    get_descriptor (usb_device (device_with_revision 0x10000 0x0100)) = (Returns b, d')
    /\ length b = 18%nat
    /\ decode_device_descriptor_usb2 b = Some dd
    /\ idVendor dd = 0
    /\ idVendor dd <> vendor_id (usb_device (device_with_revision 0x10000 0x0100))
    /\ bcdUSB dd = 0x0200
    /\ bcdUSB dd <> usb_spec_version (usb_device (device_with_revision 0x10000 0x0100))
    /\ bcdDevice dd = 0x0001
    /\ bcdDevice dd <> device_revision (usb_device (device_with_revision 0x10000 0x0100)).
Proof.
  do 3 eexists. split; [reflexivity |]. split; [reflexivity |].
  split; [reflexivity |]. split; [reflexivity |]. split; [discriminate |].
  split; [reflexivity |]. split; [discriminate |].
  split; [reflexivity |]. discriminate.
Qed.

(** The spec version of the default device: the field holds [0x0002],
    the two bytes written are [00 02], and read low byte first they are
    [0x0200]. *)
Example get_descriptor_default_spec_version :
  usb_spec_version example_device = 0x0002
  /\ (exists (d' : USBBaseDevice) (dd : DeviceDescriptor),
        get_descriptor example_device
        = (Returns [18; 1; 0x00; 0x02; 0; 0; 0; 64; 0x0b; 0x61; 0x53; 0x46; 0; 0; 1; 2; 3; 2],
           d')
        /\ decode_device_descriptor_usb2
             [18; 1; 0x00; 0x02; 0; 0; 0; 64; 0x0b; 0x61; 0x53; 0x46; 0; 0; 1; 2; 3; 2]
           = Some dd
        /\ bcdUSB dd = 0x0200).
Proof. split; [reflexivity |]. do 2 eexists. repeat split; reflexivity. Qed.

(** A device class beyond a byte makes [bytearray] raise: no descriptor
    is returned at all. *)
Example get_descriptor_rejects_wide_class :
  fst (get_descriptor (usb_device (device_with 256 0x610b))) = Raises ValueError.
Proof. reflexivity. Qed.

(** ** GET_DESCRIPTOR *)

Lemma call_bound_value (m : BoundProducer) (i : Z) (d d' : USBBaseDevice)
    (v : Producer) :
  call_bound m i d = (Returns v, d') ->
  v = PNone \/ exists b : bytes, v = PBytes b.
Proof.
  destruct m; unfold call_bound.
  - unfold mbind, M_bind. destruct (get_descriptor d) as [[b | err |] d1];
      intros H; inversion H; eauto.
  - unfold mbind, M_bind. destruct (get_configuration_descriptor i d) as [[b | err |] d1];
      intros H; inversion H; eauto.
  - unfold get_string_descriptor. destruct (decide (i = 0)).
    + unfold mbind, M_bind.
      destruct (handle_get_supported_languages_descriptor d) as [[b | err |] d1];
        intros H; inversion H; eauto.
    + unfold strings_getitem, mbind, M_bind, get_self. simpl.
      destruct (strings d !! Z.to_nat (i - 1)); [destruct (1 <=? i) |];
        intros H; inversion H; eauto.
Qed.

(** What the [while callable(response)] loop ends with is not callable. *)
Lemma resolve_callable_value (p : Producer) (i : Z) :
  forall (d d' : USBBaseDevice) (v : Producer),
    resolve_callable p i d = (Returns v, d') ->
    v = PNone \/ exists b : bytes, v = PBytes b.
Proof.
  induction p as [| b | f IH | m]; intros d d' v H; simpl in H.
  - inversion H. by left.
  - inversion H. right. by exists b.
  - by apply (IH i d d' v).
  - by apply (call_bound_value m i d d' v).
Qed.

(** C7: the code falls short of the claim on a configuration index that
    does not exist.  The example device has configurations 1 and 2; a
    GET_DESCRIPTOR for configuration index 2 finds the type in the table,
    calls [get_configuration_descriptor 2], and the [KeyError] of its
    lookup of configuration 3 leaves the handler, and [handle_request]
    with it: the request gets neither a reply nor a stall.
    SET_CONFIGURATION for the same missing configuration 3 catches the
    [KeyError] and stalls. *)
Lemma generic_get_descriptor_request_missing_configuration :
  value_high (get_descriptor_request 2 2 64) = DescriptorTypes.CONFIGURATION
  /\ value_low (get_descriptor_request 2 2 64) = 2
  /\ descriptors example_device !! DescriptorTypes.CONFIGURATION
     = Some (PBound get_configuration_descriptor_m)
  /\ configurations example_device !! 3 = None
  /\ trace example_device = []
  /\ handle_generic_get_descriptor_request (get_descriptor_request 2 2 64)
       example_device
     = (Raises KeyError, example_device)
  /\ handle_request no_user_handler (get_descriptor_request 2 2 64) example_device
     = (Raises KeyError, example_device)
  /\ handle_set_configuration_request (standard_request 9 3 0) example_device
     = (Returns tt,
        with_trace [RequestStall; BackendConfigured None] example_device).
Proof. repeat split; reflexivity. Qed.

(** Where a configuration exists the same request is answered: index 1
    is configuration 2, cut to the four bytes asked for. *)
Example generic_get_descriptor_request_configuration_2 :
  handle_generic_get_descriptor_request (get_descriptor_request 2 1 4) example_device
  = (Returns tt, with_trace [RequestReply [9; 2; 25; 0]] example_device).
Proof. reflexivity. Qed.

(** The chain of the example is followed to its ten-byte buffer, which
    is cut to the four bytes asked for, or sent whole when sixty-four are
    asked for; an unknown type stalls; the device descriptor is cut to
    eight bytes. *)
Example generic_get_descriptor_chain :
  trace (snd (handle_generic_get_descriptor_request
                (standard_request 6 0x2102 4) chained_device))
    = [RequestReply [10; 0x21; 2; 3]]
  /\ trace (snd (handle_generic_get_descriptor_request
                   (standard_request 6 0x2102 64) chained_device))
    = [RequestReply [10; 0x21; 2; 3; 4; 5; 6; 7; 8; 9]]
  /\ trace (snd (handle_generic_get_descriptor_request
                   (standard_request 6 0x2202 64) chained_device))
    = [RequestStall]
  /\ trace (snd (handle_generic_get_descriptor_request
                   (standard_request 6 0x0100 8) chained_device))
    = [RequestReply [18; 1; 0; 2; 0; 0; 0; 64]].
Proof. vm_compute. done. Qed.

(** ** Dispatch of control requests *)

Section DispatchProperties.

Variable user_handler : nat -> USBControlRequest -> M unit.

Lemma find_declined (r : USBControlRequest) (own : list HandlerBinding) :
  forallb (fun b => negb (binding_matches r b)) own = true ->
  List.find (binding_matches r) own = None.
Proof.
  induction own as [| b own IH]; [done |]. simpl.
  intros H. apply andb_prop in H as [Hb Hown].
  apply negb_true_iff in Hb. rewrite Hb. by apply IH.
Qed.

(** A handler that declines, with all its subordinates, reports the
    request unhandled and has touched nothing. *)
Lemma node_declines_unhandled (r : USBControlRequest) :
  forall (t : RequestHandlerNode) (d : USBBaseDevice),
    node_declines r t = true ->
    node_handle_request user_handler t r d = (Returns false, d).
Proof.
  fix IH 1. intros [own subordinates] d H.
  cbn [node_declines] in H. apply andb_prop in H as [Hown Hsubs].
  cbn [node_handle_request]. rewrite (find_declined r own Hown).
  clear Hown. induction subordinates as [| s l IHl]; [done |].
  cbn [forallb] in Hsubs. apply andb_prop in Hsubs as [Hs Hl].
  erewrite bind_returns by (apply IH; exact Hs).
  by apply IHl.
Qed.

Lemma count_events_app (kind : Event -> bool) (t t' : list Event) :
  count_events kind (t ++ t') = (count_events kind t + count_events kind t')%nat.
Proof. unfold count_events. by rewrite List.filter_app, length_app. Qed.

(** Whatever the walk of the hierarchy did, once it reports the request
    unhandled the device records the suggestion and stalls endpoint 0. *)
Lemma handle_request_after_unhandled (d d1 : USBBaseDevice)
    (b : FacedancerUSBApp) (r : USBControlRequest) :
  USBRequestHandler_handle_request user_handler r d = (Returns false, d1) ->
  backend d1 = Some b ->
  handle_request user_handler r d
  = (Returns false,
     with_trace (trace d1 ++ [BackendStallEndpoint 0 OUT])
       (with_suggestions
          ({[suggestion_summary r]} ∪ _suggested_requests d1)
          (<[suggestion_summary r :=
               {| meta_length := req_length r; meta_data := req_data r |}]>
             (_suggested_request_metadata d1))
          d1)).
Proof.
  intros Hbase Hb. unfold handle_request.
  erewrite bind_returns by exact Hbase. cbn [negb].
  unfold _add_request_suggestion, stall, modify_self.
  unfold mbind, M_bind. cbn beta iota.
  by rewrite (backend_call_attached _ _ b) by done.
Qed.

(** C4, as amended: when no binding of the device or of any handler
    below it matches the request, [handle_request] reports it unhandled,
    stalls endpoint 0 exactly once, and records the suggestion under the
    request's (direction, type, recipient, number): the metadata kept
    under that key is this request's length and data, every other
    record is untouched, and the set of suggestions grows by exactly
    one when the signature was not recorded before and is unchanged
    otherwise. *)
Theorem handle_request_unhandled_stalls_once (d : USBBaseDevice)
    (b : FacedancerUSBApp) (r : USBControlRequest) :
  backend d = Some b ->
  node_declines r
    (HandlerNode (_request_handlers d) (_get_subordinate_handlers d)) = true ->
  exists d' : USBBaseDevice,
    handle_request user_handler r d = (Returns false, d')
    /\ trace d' = trace d ++ [BackendStallEndpoint 0 OUT]
    /\ count_events is_stall_of_endpoint_0 (trace d')
       = S (count_events is_stall_of_endpoint_0 (trace d))
    /\ _suggested_requests d' = {[suggestion_summary r]} ∪ _suggested_requests d
    /\ _suggested_request_metadata d'
       = <[suggestion_summary r :=
             {| meta_length := req_length r; meta_data := req_data r |}]>
           (_suggested_request_metadata d)
    /\ (suggestion_summary r ∉ _suggested_requests d ->
        size (_suggested_requests d') = S (size (_suggested_requests d)))
    /\ (suggestion_summary r ∈ _suggested_requests d ->
        _suggested_requests d' = _suggested_requests d)
    /\ address d' = address d
    /\ configuration d' = configuration d.
Proof.
  intros Hb Hdecl. eexists.
  assert (Hbase : USBRequestHandler_handle_request user_handler r d
                  = (Returns false, d)).
  { unfold USBRequestHandler_handle_request, mbind, M_bind, get_self.
    cbn beta iota. by apply node_declines_unhandled. }
  split; [exact (handle_request_after_unhandled d d b r Hbase Hb) |].
  cbn [trace with_trace with_suggestions _suggested_requests
       _suggested_request_metadata address configuration].
  split; [done |]. split.
  { rewrite count_events_app.
    change (count_events is_stall_of_endpoint_0 [BackendStallEndpoint 0 OUT])
      with 1%nat.
    lia. }
  split; [done |]. split; [done |]. split; [| split; [| done]].
  - intros Hnew. rewrite size_union by set_solver.
    by rewrite size_singleton.
  - intros Hold. apply subseteq_union_1_L. set_solver.
Qed.

End DispatchProperties.

Lemma handle_request_unhandled_stalls_once_witness :
  exists d' : USBBaseDevice,
    handle_request no_user_handler (vendor_request 0x42 8) example_device
      = (Returns false, d')
    /\ trace d' = trace example_device ++ [BackendStallEndpoint 0 OUT]
    /\ count_events is_stall_of_endpoint_0 (trace d')
       = S (count_events is_stall_of_endpoint_0 (trace example_device))
    /\ _suggested_requests d'
       = {[suggestion_summary (vendor_request 0x42 8)]}
         ∪ _suggested_requests example_device
    /\ _suggested_request_metadata d'
       = <[suggestion_summary (vendor_request 0x42 8) :=
             {| meta_length := 8; meta_data := [] |}]>
           (_suggested_request_metadata example_device)
    /\ (suggestion_summary (vendor_request 0x42 8) ∉ _suggested_requests example_device ->
        size (_suggested_requests d') = S (size (_suggested_requests example_device)))
    /\ (suggestion_summary (vendor_request 0x42 8) ∈ _suggested_requests example_device ->
        _suggested_requests d' = _suggested_requests example_device)
    /\ address d' = address example_device
    /\ configuration d' = configuration example_device.
Proof.
  apply (handle_request_unhandled_stalls_once no_user_handler example_device
           FacedancerUSBApp_new (vendor_request 0x42 8));
    [reflexivity | vm_compute; reflexivity].
Defined.

(** C4 as stated fails: the vendor request 0x42 is claimed by no handler
    of the example device.  Handled once, it leaves one suggestion; the
    same request handled again is stalled again, but no new record
    appears: there is still one suggestion and one metadata entry, now
    holding the length of the second request. *)
Lemma handle_request_repeated_adds_no_record :
  exists d1 d2 : USBBaseDevice,
    handle_request no_user_handler (vendor_request 0x42 8) example_device
      = (Returns false, d1)
    /\ node_declines (vendor_request 0x42 64)
         (HandlerNode (_request_handlers d1) (_get_subordinate_handlers d1)) = true
    /\ handle_request no_user_handler (vendor_request 0x42 64) d1
      = (Returns false, d2)
    /\ trace d2 = [BackendStallEndpoint 0 OUT; BackendStallEndpoint 0 OUT]
    /\ size (_suggested_requests d1) = 1%nat
    /\ size (_suggested_requests d2) = 1%nat
    /\ size (_suggested_requests d2) <> S (size (_suggested_requests d1))
    /\ size (_suggested_request_metadata d2) = 1%nat
    /\ _suggested_request_metadata d2 !! (IN, VENDOR, DEVICE, 0x42)
       = Some {| meta_length := 64; meta_data := [] |}.
Proof.
  do 2 eexists. split; [reflexivity |]. split; [vm_compute; reflexivity |].
  split; [reflexivity |]. split; [reflexivity |].
  split; [vm_compute; reflexivity |]. split; [vm_compute; reflexivity |].
  split; [vm_compute; lia |]. split; [vm_compute; reflexivity |].
  vm_compute. reflexivity.
Qed.

(** A request a handler claims is not stalled by the device: SET_ADDRESS
    reaches its handler through the registry of [USBDevice]. *)
Example handle_request_dispatches_set_address :
  let '(o, d') :=
    handle_request no_user_handler (standard_request 5 5 0) example_device in
  o = Returns true
  /\ address d' = 5
  /\ trace d' = [RequestAcknowledge true; BackendSetAddress 5 false]
  /\ size (_suggested_requests d') = 0%nat.
Proof. vm_compute. done. Qed.

(** ** Emulation *)

Lemma connect_returns (d : USBBaseDevice) :
  exists (d0 : USBBaseDevice) (b : FacedancerUSBApp),
    connect d = (Returns tt, d0)
    /\ backend d0 = Some b
    /\ trace d0 = trace d ++ [BackendConnect (max_packet_size_ep0 d)].
Proof.
  unfold connect, mbind, M_bind, mret, M_ret, get_self, modify_self. cbn beta iota.
  destruct (backend d) as [b |] eqn:Hb; cbn beta iota.
  - rewrite (backend_call_attached _ _ b) by done. by eexists _, b.
  - rewrite (backend_call_attached _ _ FacedancerUSBApp_new) by done.
    by eexists _, FacedancerUSBApp_new.
Qed.

(** The [while True:] loop has no normal exit. *)
Lemma run_loop_never_returns (service coroutines : nat -> M unit) (fuel : nat) :
  forall (i : nat) (d : USBBaseDevice),
    fst (run_loop service coroutines fuel i d) <> Returns tt.
Proof.
  induction fuel as [| fuel IH]; intros i d; [done |].
  cbn [run_loop]. unfold mbind, M_bind.
  destruct (backend_call BackendServiceIrqs d) as [[[] | e1 |] d1]; try done.
  destruct (service i d1) as [[[] | e2 |] d2]; try done.
  destruct (coroutines i d2) as [[[] | e3 |] d3]; first [done | apply IH].
Qed.

(** C9: however the run between [connect] and [disconnect] ends (it
    returns, it is interrupted from the keyboard, or it raises anything
    else), [emulate] calls the backend's [disconnect] exactly once after
    it, and only then returns (after a normal end or an interrupt) or
    lets the exception through. *)
Theorem emulate_disconnects_once (run_with : M unit) (d d0 d1 : USBBaseDevice)
    (o : Outcome unit) (b : FacedancerUSBApp) :
  connect d = (Returns tt, d0) ->
  run_with d0 = (o, d1) ->
  o <> Unfinished ->
  backend d1 = Some b ->
  emulate run_with d
    = (match o with
       | Raises KeyboardInterrupt => Returns tt
       | _ => o
       end,
       with_trace (trace d1 ++ [BackendDisconnect]) d1)
  /\ count_events is_disconnect (trace d1 ++ [BackendDisconnect])
     = S (count_events is_disconnect (trace d1)).
Proof.
  intros Hconnect Hrun Hfin Hb. split.
  - unfold emulate. erewrite bind_returns by exact Hconnect.
    unfold try_finally, try_except_KeyboardInterrupt, disconnect.
    rewrite Hrun.
    destruct o as [[] | e |]; [| destruct e |];
      try (by rewrite (backend_call_attached _ _ b Hb)).
    done.
  - unfold count_events. rewrite List.filter_app, length_app. simpl. lia.
Qed.

Lemma emulate_disconnects_once_witness :
  emulate (run_with interrupted_at_third_poll idle_coroutines 10) detached_device
    = (Returns tt,
       with_trace
         ([BackendConnect 64; BackendServiceIrqs; BackendServiceIrqs;
           BackendServiceIrqs] ++ [BackendDisconnect])
         example_device)
  /\ count_events is_disconnect
       ([BackendConnect 64; BackendServiceIrqs; BackendServiceIrqs;
         BackendServiceIrqs] ++ [BackendDisconnect])
     = S (count_events is_disconnect
            [BackendConnect 64; BackendServiceIrqs; BackendServiceIrqs;
             BackendServiceIrqs]).
Proof.
  apply (emulate_disconnects_once
           (run_with interrupted_at_third_poll idle_coroutines 10)
           detached_device
           (with_trace [BackendConnect 64] example_device)
           (with_trace [BackendConnect 64; BackendServiceIrqs; BackendServiceIrqs;
                        BackendServiceIrqs] example_device)
           (Raises KeyboardInterrupt) FacedancerUSBApp_new);
    [reflexivity | reflexivity | discriminate | reflexivity].
Defined.

(** Any other exception comes out of [emulate], after the disconnect. *)
Example emulate_failing_run :
  let '(o, d') :=
    emulate (run_with failing_at_third_poll idle_coroutines 10) detached_device in
  o = Raises (OtherException "USBError")
  /\ trace d' = [BackendConnect 64; BackendServiceIrqs; BackendServiceIrqs;
                 BackendServiceIrqs; BackendDisconnect].
Proof. vm_compute. done. Qed.

(** A [run_with] that returns is followed by the disconnect as well. *)
Example emulate_returning_run :
  let '(o, d') := emulate (mret tt) detached_device in
  o = Returns tt /\ trace d' = [BackendConnect 64; BackendDisconnect].
Proof. vm_compute. done. Qed.

(** * Further properties of the device *)

(** ** Packets, continued *)

Lemma send_packets_loop_shape (b : FacedancerUSBApp) (n P : Z) (blocking : bool) :
  0 < P ->
  forall (fuel : nat) (data : bytes) (d : USBBaseDevice),
    backend d = Some b ->
    (length data <= fuel)%nat ->
    exists packets : list bytes,
      send_packets_loop fuel n data P blocking d
        = (Returns tt, with_trace (trace d ++ sends n blocking packets) d)
      /\ concat packets = data
      /\ Forall (fun p => 0 < Z.of_nat (length p) <= P) packets
      /\ all_but_last_full P packets.
Proof.
  intros HP. induction fuel as [| fuel IH]; intros data d Hb Hlen.
  - destruct data as [| x xs]; [| simpl in Hlen; lia].
    exists []. simpl. rewrite app_nil_r, with_trace_same.
    repeat split; [constructor |]. by intros i p Hi.
  - destruct data as [| x xs].
    + exists []. simpl. rewrite app_nil_r, with_trace_same.
      repeat split; [constructor |]. by intros i p Hi.
    + cbn [send_packets_loop].
      set (data := x :: xs) in *.
      erewrite bind_returns by (apply (backend_call_attached _ _ b Hb)).
      unfold slice_to, del_slice_to.
      destruct (Z.leb_spec 0 P) as [_ | ?]; [| lia].
      destruct (IH (drop (Z.to_nat P) data)
                  (with_trace (trace d ++
                     [BackendSendOnEndpoint n (take (Z.to_nat P) data) blocking]) d))
        as (packets & Hrun & Hcat & Hall & Hfull).
      { done. }
      { rewrite length_drop. subst data. simpl in *. lia. }
      exists (take (Z.to_nat P) data :: packets).
      rewrite Hrun. unfold sends. rewrite fmap_cons.
      rewrite with_trace_twice. cbn [trace with_trace]. rewrite <- app_assoc.
      split; [done |]. split; [by cbn [concat]; rewrite Hcat, take_drop |].
      split.
      * constructor; [| done].
        rewrite length_take. subst data. simpl length. lia.
      * intros [| i] p Hi Hlast.
        -- cbn in Hi. inversion Hi; subst p. clear Hi.
           destruct packets as [| q packets']; [simpl in Hlast; lia |].
           apply Forall_cons in Hall as [Hq _].
           assert (Hrest : (0 < length (drop (Z.to_nat P) data))%nat).
           { rewrite <- Hcat. cbn [concat]. rewrite length_app. lia. }
           rewrite length_drop in Hrest. rewrite length_take. lia.
        -- cbn in Hi. apply (Hfull i p Hi). simpl in Hlast. lia.
Qed.

Lemma all_but_last_full_length (P : Z) (packets : list bytes) :
  packets <> [] ->
  Forall (fun p => 0 < Z.of_nat (length p) <= P) packets ->
  all_but_last_full P packets ->
  Z.of_nat (length (concat packets))
    = P * Z.of_nat (length packets - 1) + Z.of_nat (length (List.last packets []))
  /\ 0 < Z.of_nat (length (List.last packets [])) <= P.
Proof.
  induction packets as [| p packets IHp]; [done |]. intros _ Hall Hfull.
  destruct packets as [| q packets'].
  - cbn. rewrite app_nil_r. apply Forall_cons in Hall as [Hp _]. lia.
  - apply Forall_cons in Hall as [Hp Hall'].
    assert (Hpfull : Z.of_nat (length p) = P).
    { apply (Hfull 0%nat p); [done | simpl; lia]. }
    destruct IHp as [IH1 IH2]; [done | done | |].
    { intros i r Hi Hlt. apply (Hfull (S i) r); [done | simpl in *; lia]. }
    change (List.last (p :: q :: packets') []) with (List.last (q :: packets') []).
    split; [| done].
    change (concat (p :: q :: packets')) with (p ++ concat (q :: packets')).
    rewrite length_app. simpl length in *. lia.
Qed.

(** X1: with a positive packet size every packet [_send_in_packets]
    sends for a non-empty payload is non-empty, and every packet but the
    last has exactly [packet_size] bytes; so a payload whose length is a
    multiple of the packet size is not followed by a zero-length packet. *)
Theorem send_in_packets_full_packets (d : USBBaseDevice) (b : FacedancerUSBApp)
    (n : Z) (data : bytes) (P : Z) (blocking : bool) :
  backend d = Some b ->
  0 < P ->
  data <> [] ->
  exists packets : list bytes,
    _send_in_packets n data P blocking d
      = (Returns tt, with_trace (trace d ++ sends n blocking packets) d)
    /\ concat packets = data
    /\ Forall (fun p => 0 < Z.of_nat (length p) <= P) packets
    /\ all_but_last_full P packets
    /\ (forall last : bytes,
          List.last packets [] = last ->
          (Z.of_nat (length data) mod P = 0 -> Z.of_nat (length last) = P)
          /\ (Z.of_nat (length data) mod P <> 0 ->
              Z.of_nat (length last) = Z.of_nat (length data) mod P)).
Proof.
  intros Hb HP Hne. destruct data as [| x xs]; [done |].
  set (data := x :: xs) in *.
  destruct (send_packets_loop_shape b n P blocking HP (length data) data d Hb)
    as (packets & Hrun & Hcat & Hall & Hfull); [done |].
  exists packets. split; [exact Hrun |]. split; [done |].
  split; [done |]. split; [done |].
  intros last Hlast.
  assert (Hlen : Z.of_nat (length data)
                 = P * Z.of_nat (length packets - 1) + Z.of_nat (length last)
                   /\ 0 < Z.of_nat (length last) <= P).
  { subst last. rewrite <- Hcat. apply all_but_last_full_length; try done.
    intros ->. by subst data. }
  destruct Hlen as [Hlen Hbound]. split.
  - intros Hmod. rewrite Hlen in Hmod.
    rewrite Z.add_comm, Z.mul_comm, Z.mod_add in Hmod by lia.
    destruct (decide (Z.of_nat (length last) = P)) as [? | Hlt]; [done |].
    rewrite Z.mod_small in Hmod by lia. lia.
  - intros Hmod. rewrite Hlen in Hmod |- *.
    rewrite Z.add_comm, Z.mul_comm, Z.mod_add in Hmod |- * by lia.
    destruct (decide (Z.of_nat (length last) = P)) as [Heq | Hlt].
    + rewrite Heq, Z.mod_same in Hmod by lia. done.
    + rewrite Z.mod_small by lia. done.
Qed.

Lemma send_in_packets_full_packets_witness :
  exists packets : list bytes,
    _send_in_packets 1 [10; 20; 30; 40] 2 false example_device
      = (Returns tt,
         with_trace (trace example_device ++ sends 1 false packets) example_device)
    /\ concat packets = [10; 20; 30; 40]
    /\ Forall (fun p => 0 < Z.of_nat (length p) <= 2) packets
    /\ all_but_last_full 2 packets
    /\ (forall last : bytes,
          List.last packets [] = last ->
          (Z.of_nat (length [10; 20; 30; 40]) mod 2 = 0 -> Z.of_nat (length last) = 2)
          /\ (Z.of_nat (length [10; 20; 30; 40]) mod 2 <> 0 ->
              Z.of_nat (length last) = Z.of_nat (length [10; 20; 30; 40]) mod 2)).
Proof.
  apply (send_in_packets_full_packets example_device FacedancerUSBApp_new);
    [reflexivity | lia | discriminate].
Defined.

Example send_in_packets_four_by_two :
  trace (snd (_send_in_packets 1 [10; 20; 30; 40] 2 false example_device))
  = [BackendSendOnEndpoint 1 [10; 20] false;
     BackendSendOnEndpoint 1 [30; 40] false].
Proof. reflexivity. Qed.

(** X2: with a packet size of zero or less and a non-empty payload the
    [while data:] loop of [_send_in_packets] never ends: whatever the
    number of iterations followed, the call has not returned, and it has
    made one backend call per iteration. *)
Theorem send_in_packets_nonpositive_size_diverges (d : USBBaseDevice)
    (b : FacedancerUSBApp) (n : Z) (data : bytes) (P : Z) (blocking : bool) :
  backend d = Some b ->
  P <= 0 ->
  data <> [] ->
  fst (_send_in_packets n data P blocking d) = Unfinished
  /\ forall fuel : nat,
       fst (send_packets_loop fuel n data P blocking d) = Unfinished
       /\ length (trace (snd (send_packets_loop fuel n data P blocking d)))
          = (length (trace d) + fuel)%nat.
Proof.
  intros Hb HP Hne. split.
  - destruct data as [| x xs]; [done |]. unfold _send_in_packets.
    by apply (send_packets_loop_never_ends b).
  - intros fuel. split; [by apply (send_packets_loop_never_ends b) |].
    revert data d Hb Hne.
    induction fuel as [| fuel IH]; intros data d Hb Hne.
    + destruct data; [done |]. simpl. lia.
    + destruct data as [| x xs]; [done |].
      cbn [send_packets_loop].
      set (data := x :: xs) in *.
      erewrite bind_returns by (apply (backend_call_attached _ _ b Hb)).
      rewrite IH.
      * cbn [trace with_trace]. rewrite length_app. simpl. lia.
      * done.
      * intros Hnil. apply (f_equal length) in Hnil.
        unfold del_slice_to in Hnil.
        destruct (Z.leb_spec 0 P); rewrite length_drop in Hnil;
          subst data; simpl length in Hnil; lia.
Qed.

Lemma send_in_packets_nonpositive_size_diverges_witness :
  fst (_send_in_packets 1 [10; 20; 30] 0 false example_device) = Unfinished
  /\ forall fuel : nat,
       fst (send_packets_loop fuel 1 [10; 20; 30] 0 false example_device) = Unfinished
       /\ length (trace (snd (send_packets_loop fuel 1 [10; 20; 30] 0 false
                                example_device)))
          = (length (trace example_device) + fuel)%nat.
Proof.
  apply (send_in_packets_nonpositive_size_diverges example_device
           FacedancerUSBApp_new); [reflexivity | lia | discriminate].
Defined.

(** X3: on a configured device, [send] on a non-zero endpoint number for
    which the active configuration has no IN endpoint raises an
    [AttributeError] (the lookup gives [None], and [None] has no [send]);
    nothing is sent and the device is left as it was. *)
Theorem send_missing_endpoint_raises (d : USBBaseDevice) (c : USBConfiguration)
    (endpoint_number : Z) (data : bytes) (blocking : bool) :
  endpoint_number <> 0 ->
  configuration d = Some c ->
  configuration_get_endpoint c endpoint_number IN = None ->
  send endpoint_number data blocking d = (Raises AttributeError, d).
Proof.
  intros Hne Hcfg Hep. unfold send.
  destruct (decide (endpoint_number = 0)) as [? | _]; [done |].
  unfold mbind, M_bind, get_self. by rewrite Hcfg, Hep.
Qed.

Lemma send_missing_endpoint_raises_witness :
  send 7 [1; 2; 3] false configured_device = (Raises AttributeError, configured_device).
Proof.
  apply (send_missing_endpoint_raises configured_device (plain_configuration 1));
    [lia | reflexivity | reflexivity].
Defined.

(** ** The state machine, continued *)

(** X4: a bus reset undoes SET_ADDRESS and SET_CONFIGURATION.  Whatever
    address and configuration requests the device (with a backend) has
    handled, after [handle_bus_reset] its address is 0 and no
    configuration is active, the backend's [reset] is the last call
    made, and the configurations, descriptor table, string table and
    handlers are untouched. *)
Theorem bus_reset_restores_unaddressed (d : USBBaseDevice) (b : FacedancerUSBApp)
    (ra rc : USBControlRequest) :
  backend d = Some b ->
  exists d1 d2 d3 : USBBaseDevice,
    handle_set_address_request ra d = (Returns tt, d1)
    /\ handle_set_configuration_request rc d1 = (Returns tt, d2)
    /\ handle_bus_reset d2 = (Returns tt, d3)
    /\ address d1 = req_value ra
    /\ address d3 = 0
    /\ configuration d3 = None
    /\ trace d3 = trace d2 ++ [BackendReset]
    /\ configurations d3 = configurations d
    /\ descriptors d3 = descriptors d
    /\ strings d3 = strings d
    /\ _request_handler_methods d3 = _request_handler_methods d
    /\ backend d3 = backend d.
Proof.
  intros Hb.
  destruct (handle_set_address_request ra d) as [o1 d1] eqn:H1.
  assert (Hd1 : o1 = Returns tt
                /\ d1 = with_trace (trace d ++ [RequestAcknowledge true;
                                                 BackendSetAddress (req_value ra) false])
                          (with_address (req_value ra) d)).
  { revert H1. unfold handle_set_address_request, set_address.
    unfold request_acknowledge, log, modify_self, mbind, M_bind. simpl.
    rewrite (backend_call_attached _ _ b) by done. simpl.
    rewrite <- app_assoc. intros H. by inversion H. }
  destruct Hd1 as [-> ->].
  set (d1 := with_trace _ _) in *.
  assert (Hb1 : backend d1 = Some b) by done.
  assert (H2 : exists d2, handle_set_configuration_request rc d1 = (Returns tt, d2)
                 /\ backend d2 = Some b
                 /\ configurations d2 = configurations d
                 /\ descriptors d2 = descriptors d
                 /\ strings d2 = strings d
                 /\ _request_handler_methods d2 = _request_handler_methods d).
  { unfold handle_set_configuration_request.
    destruct (decide (req_value rc = 0)).
    - unfold request_acknowledge, log, modify_self, mbind, M_bind, get_self. simpl.
      rewrite (backend_call_attached _ _ b) by done. by eexists.
    - unfold try_except_KeyError, request_acknowledge, request_stall, log,
        modify_self, mbind, M_bind, get_self. simpl.
      destruct (configurations d !! req_value rc) as [c |]; simpl;
        rewrite (backend_call_attached _ _ b) by done; by eexists. }
  destruct H2 as (d2 & Hrun2 & Hb2 & Hc2 & Hd2 & Hs2 & Hh2).
  exists d1, d2. eexists. split; [done |]. split; [done |].
  unfold handle_bus_reset, modify_self, mbind, M_bind. simpl.
  rewrite (backend_call_attached _ _ b) by done.
  split; [reflexivity |]. simpl. rewrite Hb2. done.
Qed.

Lemma bus_reset_restores_unaddressed_witness :
  exists d1 d2 d3 : USBBaseDevice,
    handle_set_address_request (standard_request 5 9 0) example_device
      = (Returns tt, d1)
    /\ handle_set_configuration_request (standard_request 9 2 0) d1 = (Returns tt, d2)
    /\ handle_bus_reset d2 = (Returns tt, d3)
    /\ address d1 = req_value (standard_request 5 9 0)
    /\ address d3 = 0
    /\ configuration d3 = None
    /\ trace d3 = trace d2 ++ [BackendReset]
    /\ configurations d3 = configurations example_device
    /\ descriptors d3 = descriptors example_device
    /\ strings d3 = strings example_device
    /\ _request_handler_methods d3 = _request_handler_methods example_device
    /\ backend d3 = backend example_device.
Proof.
  apply (bus_reset_restores_unaddressed example_device FacedancerUSBApp_new).
  reflexivity.
Defined.

(** X5: SET_CONFIGURATION with the number of a registered configuration
    makes that configuration the active one, acknowledges, and tells the
    backend; a GET_CONFIGURATION that follows replies with the one byte
    holding the configuration's number.  Selecting the same configuration
    again leaves the same configuration active. *)
Theorem set_then_get_configuration (d : USBBaseDevice) (b : FacedancerUSBApp)
    (c : USBConfiguration) (rs rg : USBControlRequest) :
  backend d = Some b ->
  req_value rs <> 0 ->
  configurations d !! req_value rs = Some c ->
  byte_ok (cfg_number c) ->
  exists d1 d2 d3 : USBBaseDevice,
    handle_set_configuration_request rs d = (Returns tt, d1)
    /\ configuration d1 = Some c
    /\ trace d1 = trace d ++ [RequestAcknowledge false; BackendConfigured (Some c)]
    /\ handle_get_configuration_request rg d1 = (Returns tt, d2)
    /\ trace d2 = trace d1 ++ [RequestReply [cfg_number c]]
    /\ configuration d2 = Some c
    /\ handle_set_configuration_request rs d2 = (Returns tt, d3)
    /\ configuration d3 = Some c.
Proof.
  intros Hb Hnz Hc Hbyte.
  assert (Hset : forall d0 : USBBaseDevice,
            backend d0 = Some b -> configurations d0 = configurations d ->
            handle_set_configuration_request rs d0
            = (Returns tt,
               with_trace (trace d0 ++ [RequestAcknowledge false;
                                        BackendConfigured (Some c)])
                 (with_configuration (Some c) d0))).
  { intros d0 Hb0 Hc0. unfold handle_set_configuration_request.
    destruct (decide (req_value rs = 0)) as [? | _]; [done |].
    unfold try_except_KeyError, request_acknowledge, log, modify_self,
      mbind, M_bind, get_self. simpl.
    rewrite Hc0, Hc. simpl.
    rewrite (backend_call_attached _ _ b) by done. simpl.
    by rewrite <- app_assoc. }
  do 3 eexists. split; [by apply Hset |]. split; [done |]. split; [done |].
  split.
  { unfold handle_get_configuration_request, to_bytes_1_little, request_reply, log,
      modify_self, mbind, M_bind, get_self. simpl.
    rewrite (byte_okb_true _ Hbyte). reflexivity. }
  split; [done |]. split; [done |].
  split; [by apply Hset |]. done.
Qed.

Lemma set_then_get_configuration_witness :
  exists d1 d2 d3 : USBBaseDevice,
    handle_set_configuration_request (standard_request 9 2 0) example_device
      = (Returns tt, d1)
    /\ configuration d1 = Some (plain_configuration 2)
    /\ trace d1 = trace example_device
                  ++ [RequestAcknowledge false;
                      BackendConfigured (Some (plain_configuration 2))]
    /\ handle_get_configuration_request (standard_request 8 0 1) d1 = (Returns tt, d2)
    /\ trace d2 = trace d1 ++ [RequestReply [cfg_number (plain_configuration 2)]]
    /\ configuration d2 = Some (plain_configuration 2)
    /\ handle_set_configuration_request (standard_request 9 2 0) d2 = (Returns tt, d3)
    /\ configuration d3 = Some (plain_configuration 2).
Proof.
  apply (set_then_get_configuration example_device FacedancerUSBApp_new
           (plain_configuration 2) (standard_request 9 2 0) (standard_request 8 0 1));
    [reflexivity | discriminate | reflexivity | unfold byte_ok; simpl; lia].
Defined.

(** X6: GET_CONFIGURATION replies with a zero byte while no
    configuration is active; when the active configuration's number does
    not fit one byte, the conversion raises [OverflowError] and the
    request gets neither a reply nor a stall. *)
Theorem get_configuration_edge_cases (d : USBBaseDevice) (r : USBControlRequest) :
  (configuration d = None ->
   handle_get_configuration_request r d
     = (Returns tt, with_trace (trace d ++ [RequestReply [0]]) d))
  /\ (forall c : USBConfiguration,
        configuration d = Some c ->
        ~ byte_ok (cfg_number c) ->
        handle_get_configuration_request r d = (Raises OverflowError, d)).
Proof.
  split.
  - intros Hcfg. unfold handle_get_configuration_request, mbind, M_bind, get_self.
    by rewrite Hcfg.
  - intros c Hcfg Hbyte.
    unfold handle_get_configuration_request, to_bytes_1_little, mbind, M_bind, get_self.
    rewrite Hcfg. simpl.
    assert (Hb : byte_okb (cfg_number c) = false).
    { unfold byte_ok in Hbyte. unfold byte_okb.
      apply andb_false_iff. destruct (Z.leb_spec 0 (cfg_number c));
        destruct (Z.ltb_spec (cfg_number c) 256); auto. lia. }
    by rewrite Hb.
Qed.

Example get_configuration_number_300 :
  handle_get_configuration_request (standard_request 8 0 1)
    (with_configuration (Some (plain_configuration 300)) example_device)
  = (Raises OverflowError,
     with_configuration (Some (plain_configuration 300)) example_device).
Proof. reflexivity. Qed.

(** ** Descriptors, continued *)

Lemma byte_okb_ok (z : Z) : byte_okb z = true -> byte_ok z.
Proof.
  unfold byte_ok, byte_okb. intros H. apply andb_prop in H as [H1 H2]. lia.
Qed.

Lemma get_descriptor_run (d : USBBaseDevice) :
  exists (i1 i2 i3 : Z) (l : list string),
    get_descriptor d
    = (if forallb byte_okb (descriptor_fields d i1 i2 i3)
       then Returns (descriptor_fields d i1 i2 i3)
       else Raises ValueError,
       with_strings l d)
    /\ strings d `prefix_of` l.
Proof.
  destruct (strings_get_index_spec (manufacturer_string d) d)
    as (i1 & l1 & Hrun1 & _ & _ & Hp1 & _).
  destruct (strings_get_index_spec (product_string d) (with_strings l1 d))
    as (i2 & l2 & Hrun2 & _ & _ & Hp2 & _).
  destruct (strings_get_index_spec (serial_number_string d) (with_strings l2 d))
    as (i3 & l3 & Hrun3 & _ & _ & Hp3 & _).
  cbn [strings with_strings] in *.
  exists i1, i2, i3, l3. split; [| by etrans; [| exact Hp3]; etrans].
  unfold get_descriptor.
  unfold mbind at 1, M_bind at 1, get_self at 1. cbn beta iota.
  erewrite bind_returns by exact Hrun1.
  erewrite bind_returns by exact Hrun2.
  erewrite bind_returns by exact Hrun3.
  unfold bytearray_of. fold (descriptor_fields d i1 i2 i3).
  by destruct (forallb byte_okb (descriptor_fields d i1 i2 i3)).
Qed.

(** X7: whatever the fields of the device, [get_descriptor] either
    raises [ValueError] or returns 18 bytes; it changes nothing but the
    string table, which it only extends, and calls nothing on the
    backend.  In the bytes returned the two-byte fields are the
    configured values modulo 65536 (so a negative or oversized vendor ID
    wraps around), and the one-byte fields are the configured values. *)
Theorem get_descriptor_outcomes (d : USBBaseDevice) :
  exists (o : Outcome bytes) (l : list string),
    get_descriptor d = (o, with_strings l d)
    /\ strings d `prefix_of` l
    /\ (o = Raises ValueError
        \/ exists (b : bytes) (dd : DeviceDescriptor),
             o = Returns b
             /\ length b = 18%nat
             /\ Forall byte_ok b
             /\ decode_device_descriptor b = Some dd
             /\ bcdUSB dd = usb_spec_version d mod 65536
             /\ idVendor dd = vendor_id d mod 65536
             /\ idProduct dd = product_id d mod 65536
             /\ bcdDevice dd = device_revision d mod 65536
             /\ bDeviceClass dd = device_class d
             /\ bDeviceSubClass dd = device_subclass d
             /\ bDeviceProtocol dd = protocol_revision_number d
             /\ bMaxPacketSize0 dd = max_packet_size_ep0 d
             /\ bNumConfigurations dd = Z.of_nat (size (configurations d))).
Proof.
  destruct (get_descriptor_run d) as (i1 & i2 & i3 & l & Hrun & Hp).
  eexists _, l. split; [exact Hrun |]. split; [done |].
  destruct (forallb byte_okb (descriptor_fields d i1 i2 i3)) eqn:Hall;
    [right | by left].
  eexists _, _. split; [reflexivity |]. split; [reflexivity |].
  split.
  { apply Forall_forall. intros z Hz.
    apply byte_okb_ok. rewrite List.forallb_forall in Hall. apply Hall.
    by apply list_elem_of_In. }
  split; [reflexivity |].
  cbn [bcdUSB idVendor idProduct bcdDevice bDeviceClass bDeviceSubClass
       bDeviceProtocol bMaxPacketSize0 bNumConfigurations].
  rewrite !two_bytes_mod.
  rewrite (Z.add_comm (Z.land (vendor_id d) 255)), (Z.add_comm (Z.land (product_id d) 255)).
  rewrite !two_bytes_mod. done.
Qed.

(** The descriptor of a device whose vendor ID is [-1]. *)
Example get_descriptor_negative_vendor :
  fst (get_descriptor (usb_device (device_with 0 (-1))))
  = Returns [18; 1; 0; 2; 0; 0; 0; 64; 0xff; 0xff; 0x53; 0x46; 0; 0; 1; 2; 3; 2].
Proof. reflexivity. Qed.

(** X8: a one-byte field outside [0, 256) makes [get_descriptor] raise
    [ValueError]: the class, subclass, protocol and EP0 packet size are
    not masked, and no more than 255 configurations can be counted. *)
Theorem get_descriptor_rejects_wide_fields (d : USBBaseDevice) :
  ~ byte_ok (device_class d)
  \/ ~ byte_ok (device_subclass d)
  \/ ~ byte_ok (protocol_revision_number d)
  \/ ~ byte_ok (max_packet_size_ep0 d)
  \/ (255 < size (configurations d))%nat ->
  fst (get_descriptor d) = Raises ValueError.
Proof.
  intros Hbad.
  destruct (get_descriptor_run d) as (i1 & i2 & i3 & l & Hrun & _).
  rewrite Hrun. cbn [fst].
  destruct (forallb byte_okb (descriptor_fields d i1 i2 i3)) eqn:Hall; [| done].
  exfalso. unfold descriptor_fields in Hall. cbn [forallb] in Hall.
  repeat match goal with
         | H : _ && _ = true |- _ => apply andb_prop in H as [? H]
         end.
  repeat match goal with
         | H : byte_okb _ = true |- _ => apply byte_okb_ok in H
         end.
  unfold byte_ok in *.
  destruct Hbad as [? | [? | [? | [? | ?]]]]; lia.
Qed.

Lemma get_descriptor_rejects_wide_fields_witness :
  fst (get_descriptor (usb_device (device_with (-1) 0x610b))) = Raises ValueError.
Proof.
  apply (get_descriptor_rejects_wide_fields (usb_device (device_with (-1) 0x610b))).
  left. unfold byte_ok. simpl. lia.
Defined.

Lemma extend_languages_spec (languages : list Z) :
  forall (packet : bytes) (d : USBBaseDevice),
    extend_languages packet languages d
    = (if forallb (fun z => (0 <=? z) && (z <? 65536)) languages
       then Returns (packet ++ flat_map (fun z => [Z.land z 0xff; Z.shiftr z 8]) languages)
       else Raises OverflowError, d).
Proof.
  induction languages as [| z rest IH]; intros packet d.
  - simpl. by rewrite app_nil_r.
  - cbn [extend_languages forallb flat_map].
    unfold to_bytes_2_little, mbind, M_bind.
    destruct ((0 <=? z) && (z <? 65536)); [| done]. simpl.
    rewrite IH. destruct (forallb _ rest); [| done].
    by rewrite <- app_assoc.
Qed.

Lemma decode_languages_encoded (languages : list Z) :
  Forall fits_16_bits languages ->
  decode_languages (flat_map (fun z => [Z.land z 0xff; Z.shiftr z 8]) languages)
  = languages.
Proof.
  induction 1 as [| z rest Hz _ IH]; [done |].
  cbn [flat_map app decode_languages]. rewrite IH. f_equal.
  rewrite land_0xff_mod, Z.shiftr_div_pow2 by lia. change (2 ^ 8) with 256.
  pose proof (Z.div_mod z 256). lia.
Qed.

Lemma supported_languages_descriptor_run (d : USBBaseDevice) :
  handle_get_supported_languages_descriptor d
  = (if byte_okb (Z.of_nat (length (supported_languages d)) * 2 + 2)
     then if forallb (fun z => (0 <=? z) && (z <? 65536)) (supported_languages d)
          then Returns ([Z.of_nat (length (supported_languages d)) * 2 + 2;
                         DescriptorTypes.STRING]
                        ++ flat_map (fun z => [Z.land z 0xff; Z.shiftr z 8])
                             (supported_languages d))
          else Raises OverflowError
     else Raises ValueError, d).
Proof.
  unfold handle_get_supported_languages_descriptor, bytearray_of.
  unfold mbind, M_bind, get_self. cbn beta iota.
  change (forallb byte_okb [Z.of_nat (length (supported_languages d)) * 2 + 2;
                            DescriptorTypes.STRING])
    with (byte_okb (Z.of_nat (length (supported_languages d)) * 2 + 2) && true).
  rewrite andb_true_r.
  destruct (byte_okb _); [| done].
  unfold mret, M_ret. rewrite extend_languages_spec.
  by destruct (forallb _ _).
Qed.

(** X9: the descriptor of the supported languages.  With at most 126
    language IDs, each fitting 16 bits, it is a header of the total
    length [2n + 2] and the string type 3, followed by every ID low byte
    first, and reading the IDs back gives the list of supported
    languages; the device is not changed.  With more than 126 languages
    the length byte does not fit and [ValueError] is raised; otherwise a
    language ID outside [0, 65536) raises [OverflowError]. *)
Theorem supported_languages_descriptor (d : USBBaseDevice) :
  ((length (supported_languages d) <= 126)%nat ->
   Forall fits_16_bits (supported_languages d) ->
   exists b : bytes,
     handle_get_supported_languages_descriptor d = (Returns b, d)
     /\ length b = (2 * length (supported_languages d) + 2)%nat
     /\ take 2 b = [Z.of_nat (length b); DescriptorTypes.STRING]
     /\ decode_languages (drop 2 b) = supported_languages d)
  /\ ((126 < length (supported_languages d))%nat ->
      handle_get_supported_languages_descriptor d = (Raises ValueError, d))
  /\ ((length (supported_languages d) <= 126)%nat ->
      ~ Forall fits_16_bits (supported_languages d) ->
      handle_get_supported_languages_descriptor d = (Raises OverflowError, d)).
Proof.
  rewrite supported_languages_descriptor_run.
  set (n := length (supported_languages d)).
  split; [| split].
  - intros Hn Hall.
    rewrite byte_okb_true by (unfold byte_ok; lia).
    assert (Hb : forallb (fun z => (0 <=? z) && (z <? 65536)) (supported_languages d)
                 = true).
    { apply List.forallb_forall. intros z Hz. rewrite Forall_forall in Hall.
      apply list_elem_of_In in Hz. specialize (Hall z Hz).
      unfold fits_16_bits in Hall. apply andb_true_intro. split; lia. }
    rewrite Hb. eexists. split; [reflexivity |].
    assert (Hlen : length (flat_map (fun z => [Z.land z 0xff; Z.shiftr z 8])
                             (supported_languages d)) = (2 * n)%nat).
    { subst n. clear. induction (supported_languages d); simpl; lia. }
    split; [cbn [app length]; rewrite Hlen; lia |].
    split.
    + cbn [app length take]. rewrite Hlen. f_equal. lia.
    + cbn [app drop]. by apply decode_languages_encoded.
  - intros Hn.
    assert (Hb : byte_okb (Z.of_nat n * 2 + 2) = false).
    { unfold byte_okb. apply andb_false_iff. right. lia. }
    by rewrite Hb.
  - intros Hn Hall.
    rewrite byte_okb_true by (unfold byte_ok; lia).
    destruct (forallb _ (supported_languages d)) eqn:Hb; [| done].
    exfalso. apply Hall. apply Forall_forall. intros z Hz.
    rewrite List.forallb_forall in Hb. apply list_elem_of_In in Hz.
    specialize (Hb z Hz). apply andb_prop in Hb as [? ?].
    unfold fits_16_bits. lia.
Qed.

Example supported_languages_of_example_device :
  fst (handle_get_supported_languages_descriptor example_device)
  = Returns [4; 3; 0x09; 0x04].
Proof. reflexivity. Qed.

(** ** Terminal actions of the standard handlers *)

Lemma count_events_snoc (kind : Event -> bool) (t : list Event) (e : Event) :
  count_events kind (t ++ [e])
  = (count_events kind t + if kind e then 1 else 0)%nat.
Proof.
  unfold count_events. rewrite List.filter_app, length_app. simpl.
  by destruct (kind e).
Qed.

(** Producers of descriptors change nothing but the string table. *)
Lemma call_bound_frame (m : BoundProducer) (i : Z) (d : USBBaseDevice) :
  exists l : list string, snd (call_bound m i d) = with_strings l d.
Proof.
  destruct m; unfold call_bound.
  - destruct (get_descriptor_run d) as (i1 & i2 & i3 & l & Hrun & _).
    exists l. unfold mbind, M_bind. rewrite Hrun.
    by destruct (forallb byte_okb _).
  - exists (strings d). rewrite with_strings_same.
    unfold get_configuration_descriptor, mbind, M_bind, get_self. simpl.
    by destruct (configurations d !! (i + 1)).
  - exists (strings d). rewrite with_strings_same.
    unfold get_string_descriptor. destruct (decide (i = 0)).
    + unfold mbind, M_bind. rewrite supported_languages_descriptor_run.
      by destruct (byte_okb _); [destruct (forallb _ _) |].
    + unfold strings_getitem, mbind, M_bind, get_self. simpl.
      by destruct (strings d !! Z.to_nat (i - 1)); [destruct (1 <=? i) |].
Qed.

Lemma resolve_callable_frame (p : Producer) (i : Z) (d : USBBaseDevice) :
  exists l : list string, snd (resolve_callable p i d) = with_strings l d.
Proof.
  induction p as [| b | f IH | m]; simpl.
  - exists (strings d). by rewrite with_strings_same.
  - exists (strings d). by rewrite with_strings_same.
  - apply IH.
  - apply call_bound_frame.
Qed.

Lemma generic_get_descriptor_one_action (r : USBControlRequest)
    (d d' : USBBaseDevice) :
  handle_generic_get_descriptor_request r d = (Returns tt, d') ->
  exists (l : list string) (e : Event),
    d' = with_trace (trace d ++ [e]) (with_strings l d)
    /\ is_terminal_action e = true.
Proof.
  unfold handle_generic_get_descriptor_request.
  unfold mbind at 1, M_bind at 1, get_self. cbn beta iota.
  set (p := default PNone (descriptors d !! value_high r)).
  destruct (resolve_callable_frame p (value_low r) d) as (l & Hl).
  unfold mbind, M_bind.
  destruct (resolve_callable p (value_low r) d) as [[v | e |] d1]; simpl in Hl;
    subst d1; [| done | done].
  destruct v as [| [| b0 b'] | f | m]; intros H; inversion H; by eexists _, _.
Qed.

Ltac count_done :=
  rewrite !count_events_snoc;
  cbn [is_terminal_action];
  lia.

Section TerminalActions.

Variable user_handler : nat -> USBControlRequest -> M unit.

(** X10: each standard request handler of [USBDevice] that returns has
    ended the transaction exactly once: one reply, acknowledgement or
    stall was issued on the request, never none and never two. *)
Theorem standard_handlers_end_transaction_once (m : HandlerMethod)
    (r : USBControlRequest) (d d' : USBBaseDevice) :
  (forall id : nat, m <> user_handler_m id) ->
  call_handler user_handler m r d = (Returns tt, d') ->
  count_events is_terminal_action (trace d')
  = S (count_events is_terminal_action (trace d)).
Proof.
  intros Hstd Hrun.
  destruct m; cbn [call_handler] in Hrun;
    try (by exfalso; eapply Hstd).
  - inversion Hrun. cbn [trace with_trace]. count_done.
  - inversion Hrun. cbn [trace with_trace]. count_done.
  - inversion Hrun. cbn [trace with_trace]. count_done.
  - revert Hrun. unfold handle_set_address_request, set_address,
      request_acknowledge, log, modify_self, mbind, M_bind. simpl.
    destruct (backend d) as [b |] eqn:Hb.
    + rewrite (backend_call_attached _ _ b) by done.
      intros H. inversion H. cbn [trace with_trace].
      count_done.
    + by rewrite backend_call_detached by done.
  - apply generic_get_descriptor_one_action in Hrun as (l & e & -> & He).
    cbn [trace with_trace with_strings].
    destruct e; try discriminate; count_done.
  - inversion Hrun. cbn [trace with_trace]. count_done.
  - revert Hrun. unfold handle_get_configuration_request, to_bytes_1_little,
      request_reply, log, modify_self, mbind, M_bind, get_self. simpl.
    destruct (configuration d) as [c |].
    + destruct (byte_okb (cfg_number c)); [| done]. simpl.
      intros H. inversion H. cbn [trace with_trace]. count_done.
    + intros H. inversion H. cbn [trace with_trace]. count_done.
  - revert Hrun. unfold handle_set_configuration_request.
    unfold try_except_KeyError, request_acknowledge, request_stall, log,
      modify_self, mbind, M_bind, get_self.
    destruct (decide (req_value r = 0)); simpl.
    + destruct (backend d) as [b |] eqn:Hb.
      * rewrite (backend_call_attached _ _ b) by done.
        intros H. inversion H. cbn [trace with_trace].
        count_done.
      * by rewrite backend_call_detached by done.
    + destruct (configurations d !! req_value r) as [c |]; simpl;
        (destruct (backend d) as [b |] eqn:Hb;
         [rewrite (backend_call_attached _ _ b) by done;
          intros H; inversion H; cbn [trace with_trace];
          count_done
         | by rewrite backend_call_detached by done]).
  - revert Hrun. unfold handle_get_interface_request, request_reply, request_stall,
      log, modify_self, mbind, M_bind, get_self. simpl.
    destruct (configuration d) as [c |];
      [destruct (bool_decide (index_low r ∈ cfg_interfaces c)) |];
      intros H; inversion H; cbn [trace with_trace]; count_done.
  - revert Hrun. unfold handle_set_interface_request.
    destruct (decide (index_low r = 0));
      intros H; inversion H; cbn [trace with_trace]; count_done.
  - inversion Hrun. cbn [trace with_trace]. count_done.
Qed.

End TerminalActions.

Lemma standard_handlers_end_transaction_once_witness :
  count_events is_terminal_action
    (trace (snd (handle_get_descriptor_request (standard_request 6 0x0100 64)
                   example_device)))
  = S (count_events is_terminal_action (trace example_device)).
Proof.
  apply (standard_handlers_end_transaction_once no_user_handler
           handle_get_descriptor_request_m (standard_request 6 0x0100 64)
           example_device);
    [discriminate | reflexivity].
Defined.

(** ** Dispatch, continued *)

Section DispatchOutcomes.

Variable user_handler : nat -> USBControlRequest -> M unit.

(** X11: [handle_request] adds to what the handlers did only when they
    report the request unhandled.  A request that was handled comes back
    handled with the device as the handlers left it: no stall, no
    suggestion.  An exception raised by a handler passes through, also
    without a stall.  An unhandled request is recorded as a suggestion
    and endpoint 0 is stalled towards OUT; without a backend the
    suggestion is still recorded and the stall raises
    [AttributeError]. *)
Theorem handle_request_by_outcome (r : USBControlRequest) (d d1 : USBBaseDevice)
    (o : Outcome bool) :
  USBRequestHandler_handle_request user_handler r d = (o, d1) ->
  handle_request user_handler r d
  = match o with
    | Returns true => (Returns true, d1)
    | Returns false =>
        let recorded :=
          with_suggestions
            ({[suggestion_summary r]} ∪ _suggested_requests d1)
            (<[suggestion_summary r :=
                 {| meta_length := req_length r; meta_data := req_data r |}]>
               (_suggested_request_metadata d1))
            d1 in
        match backend d1 with
        | Some _ =>
            (Returns false,
             with_trace (trace d1 ++ [BackendStallEndpoint 0 OUT]) recorded)
        | None => (Raises AttributeError, recorded)
        end
    | Raises e => (Raises e, d1)
    | Unfinished => (Unfinished, d1)
    end.
Proof.
  intros Hbase. unfold handle_request.
  unfold mbind at 1, M_bind at 1. rewrite Hbase.
  destruct o as [[|] | e |]; try done.
  cbn [negb]. unfold _add_request_suggestion, stall, modify_self.
  unfold mbind, M_bind. cbn beta iota.
  destruct (backend d1) as [b |] eqn:Hb.
  - by rewrite (backend_call_attached _ _ b) by done.
  - by rewrite backend_call_detached by done.
Qed.

End DispatchOutcomes.

Lemma handle_request_by_outcome_witness :
  handle_request no_user_handler (standard_request 9 1 0) example_device
  = (Returns true,
     with_trace [RequestAcknowledge false;
                 BackendConfigured (Some (plain_configuration 1))]
       configured_device).
Proof.
  apply (handle_request_by_outcome no_user_handler (standard_request 9 1 0)
           example_device
           (with_trace [RequestAcknowledge false;
                        BackendConfigured (Some (plain_configuration 1))]
              configured_device)
           (Returns true)).
  reflexivity.
Defined.

(** ** The suggestion engine *)

(** X12: every suggestion has its metadata.  A freshly constructed
    device has this property, and [_add_request_suggestion] keeps it, so
    the lookup [_suggested_request_metadata[suggestion]] that printing
    the suggestions performs for each recorded signature cannot miss;
    recording the same request twice is the same as recording it once. *)
Theorem suggestions_keep_metadata (r : USBControlRequest) (d : USBBaseDevice) :
  suggestions_have_metadata d ->
  suggestions_have_metadata (snd (_add_request_suggestion r d))
  /\ suggestion_summary r ∈ _suggested_requests (snd (_add_request_suggestion r d))
  /\ (forall s : Suggestion,
        s ∈ _suggested_requests (snd (_add_request_suggestion r d)) ->
        is_Some (_suggested_request_metadata (snd (_add_request_suggestion r d)) !! s))
  /\ snd (_add_request_suggestion r (snd (_add_request_suggestion r d)))
     = snd (_add_request_suggestion r d).
Proof.
  unfold suggestions_have_metadata. intros Hinv.
  unfold _add_request_suggestion, modify_self.
  cbn [snd _suggested_requests _suggested_request_metadata with_suggestions].
  assert (Hdom : dom (<[suggestion_summary r :=
                         {| meta_length := req_length r; meta_data := req_data r |}]>
                        (_suggested_request_metadata d))
                 = {[suggestion_summary r]} ∪ _suggested_requests d).
  { by rewrite dom_insert_L, Hinv. }
  split; [done |]. split; [apply elem_of_union_l, elem_of_singleton; done |]. split.
  - intros s Hs. apply elem_of_dom. by rewrite Hdom.
  - unfold with_suggestions. cbn. f_equal.
    + by rewrite (assoc_L (∪)), (idemp_L (∪)).
    + by rewrite insert_insert_eq.
Qed.

Lemma post_init_suggestions_have_metadata (d : USBBaseDevice)
    (ds : gmap Z Producer) (cs : gmap Z USBConfiguration)
    (ms : list HandlerBinding) :
  suggestions_have_metadata (__post_init__ d ds cs ms).
Proof. unfold suggestions_have_metadata. cbn. by rewrite dom_empty_L. Qed.

Lemma suggestions_keep_metadata_witness :
  suggestions_have_metadata (snd (_add_request_suggestion (vendor_request 0x42 8)
                                    example_device))
  /\ suggestion_summary (vendor_request 0x42 8)
     ∈ _suggested_requests (snd (_add_request_suggestion (vendor_request 0x42 8)
                                   example_device))
  /\ (forall s : Suggestion,
        s ∈ _suggested_requests (snd (_add_request_suggestion (vendor_request 0x42 8)
                                        example_device)) ->
        is_Some (_suggested_request_metadata
                   (snd (_add_request_suggestion (vendor_request 0x42 8)
                           example_device)) !! s))
  /\ snd (_add_request_suggestion (vendor_request 0x42 8)
            (snd (_add_request_suggestion (vendor_request 0x42 8) example_device)))
     = snd (_add_request_suggestion (vendor_request 0x42 8) example_device).
Proof.
  apply (suggestions_keep_metadata (vendor_request 0x42 8) example_device).
  apply post_init_suggestions_have_metadata.
Defined.

(** ** Configurations *)

(** X13: [add_configuration] registers the configuration under its
    number: its descriptor is then what [get_configuration_descriptor]
    returns for the index one below that number, every other index gives
    what it gave before, and the configuration count grows by one when
    the number was free and is unchanged when the configuration replaces
    one with the same number. *)
Theorem add_configuration_then_descriptor (c : USBConfiguration) (d : USBBaseDevice) :
  exists d' : USBBaseDevice,
    add_configuration c d = (Returns tt, d')
    /\ d' = with_configurations (configurations d') d
    /\ get_configuration_descriptor (cfg_number c - 1) d'
       = (Returns (cfg_descriptor c), d')
    /\ (forall i : Z,
          i + 1 <> cfg_number c ->
          fst (get_configuration_descriptor i d')
          = fst (get_configuration_descriptor i d))
    /\ (configurations d !! cfg_number c = None ->
        size (configurations d') = S (size (configurations d)))
    /\ (is_Some (configurations d !! cfg_number c) ->
        size (configurations d') = size (configurations d))
    /\ (keyed_by_number (configurations d) -> keyed_by_number (configurations d')).
Proof.
  eexists. split; [reflexivity |].
  cbn [configurations with_configurations].
  split; [done |]. split.
  { unfold get_configuration_descriptor, mbind, M_bind, get_self.
    cbn [configurations with_configurations].
    replace (cfg_number c - 1 + 1) with (cfg_number c) by lia.
    by rewrite lookup_insert_eq. }
  split.
  { intros i Hi. unfold get_configuration_descriptor, mbind, M_bind, get_self.
    cbn [configurations with_configurations].
    rewrite lookup_insert_ne by done.
    by destruct (configurations d !! (i + 1)). }
  split; [by apply map_size_insert_None |].
  split.
  { intros Hsome. by apply map_size_insert_Some. }
  intros Hkeys. by apply map_Forall_insert_2.
Qed.

(** ** The descriptor table *)

(** X14: the descriptor table [__post_init__] builds.  Types 1, 2 and 3
    (device, configuration, string) always go to the device's own
    producers, even when a descriptor of that type was declared on the
    class or passed to the constructor; for any other type a descriptor
    declared on the class wins over one passed to the constructor.  The
    device starts at address 0 with no active configuration and no
    suggestions. *)
Theorem post_init_descriptor_table (d : USBBaseDevice)
    (subordinate_descriptors : gmap Z Producer)
    (subordinate_configurations : gmap Z USBConfiguration)
    (handler_methods : list HandlerBinding) :
  let d' := __post_init__ d subordinate_descriptors subordinate_configurations
              handler_methods in
  descriptors d' !! 1 = Some (PBound get_descriptor_m)
  /\ descriptors d' !! 2 = Some (PBound get_configuration_descriptor_m)
  /\ descriptors d' !! 3 = Some (PBound get_string_descriptor_m)
  /\ (forall t : Z,
        t <> 1 -> t <> 2 -> t <> 3 ->
        descriptors d' !! t
        = match subordinate_descriptors !! t with
          | Some p => Some p
          | None => descriptors d !! t
          end)
  /\ address d' = 0
  /\ configuration d' = None
  /\ _suggested_requests d' = ∅
  /\ configurations d' = subordinate_configurations.
Proof.
  cbn. unfold DescriptorTypes.DEVICE, DescriptorTypes.CONFIGURATION,
    DescriptorTypes.STRING.
  split; [by rewrite lookup_insert_ne, lookup_insert_ne, lookup_insert_eq |].
  split; [by rewrite lookup_insert_ne, lookup_insert_eq |].
  split; [by rewrite lookup_insert_eq |].
  split; [| done].
  intros t H1 H2 H3. rewrite !lookup_insert_ne by done.
  rewrite lookup_union.
  destruct (subordinate_descriptors !! t), (descriptors d !! t); done.
Qed.

(** ** GET_DESCRIPTOR on the built-in descriptor types *)

(** X15: on a device whose type-1 entry is the device's own producer (as
    [__post_init__] installs it), GET_DESCRIPTOR for the device
    descriptor replies with the first [min(request.length, 18)] bytes of
    what [get_descriptor] returns, whatever descriptor index the request
    carries; when [get_descriptor] raises, so does the handler. *)
Theorem get_device_descriptor_request (r : USBControlRequest) (d : USBBaseDevice) :
  value_high r = DescriptorTypes.DEVICE ->
  descriptors d !! DescriptorTypes.DEVICE = Some (PBound get_descriptor_m) ->
  (forall (b : bytes) (d1 : USBBaseDevice),
     get_descriptor d = (Returns b, d1) ->
     handle_generic_get_descriptor_request r d
     = (Returns tt,
        with_trace (trace d1 ++ [RequestReply (take (Nat.min (N.to_nat (req_length r)) 18) b)])
          d1))
  /\ (forall (e : Exception) (d1 : USBBaseDevice),
        get_descriptor d = (Raises e, d1) ->
        handle_generic_get_descriptor_request r d = (Raises e, d1)).
Proof.
  intros Htype Hentry. split.
  - intros b d1 Hrun.
    assert (Hshape : exists (b0 : Z) (b' : bytes), b = b0 :: b' /\ length b = 18%nat).
    { destruct (get_descriptor_run d) as (i1 & i2 & i3 & l & Hrun' & _).
      rewrite Hrun in Hrun'.
      destruct (forallb byte_okb (descriptor_fields d i1 i2 i3)); [| done].
      inversion Hrun'. by eexists _, _. }
    destruct Hshape as (b0 & b' & -> & Hlen).
    unfold handle_generic_get_descriptor_request.
    unfold mbind at 1, M_bind at 1, get_self. cbn beta iota.
    rewrite Htype, Hentry. cbn [default from_option id resolve_callable call_bound].
    unfold mbind, M_bind. rewrite Hrun. unfold mret, M_ret. cbn beta iota.
    unfold request_reply, log, modify_self, slice_to. rewrite Hlen.
    destruct (Z.leb_spec 0 (Z.min (Z.of_N (req_length r)) (Z.of_nat 18))); [| lia].
    repeat f_equal. lia.
  - intros e d1 Hrun.
    unfold handle_generic_get_descriptor_request.
    unfold mbind at 1, M_bind at 1, get_self. cbn beta iota.
    rewrite Htype, Hentry. cbn [default from_option id resolve_callable call_bound].
    unfold mbind, M_bind. by rewrite Hrun.
Qed.

Lemma get_device_descriptor_request_witness :
  (forall (b : bytes) (d1 : USBBaseDevice),
     get_descriptor example_device = (Returns b, d1) ->
     handle_generic_get_descriptor_request (standard_request 6 0x0107 8) example_device
     = (Returns tt,
        with_trace
          (trace d1
           ++ [RequestReply
                 (take (Nat.min (N.to_nat (req_length (standard_request 6 0x0107 8))) 18)
                    b)])
          d1))
  /\ (forall (e : Exception) (d1 : USBBaseDevice),
        get_descriptor example_device = (Raises e, d1) ->
        handle_generic_get_descriptor_request (standard_request 6 0x0107 8)
          example_device = (Raises e, d1)).
Proof.
  apply (get_device_descriptor_request (standard_request 6 0x0107 8) example_device);
    reflexivity.
Defined.

Example get_device_descriptor_index_ignored :
  trace (snd (handle_generic_get_descriptor_request (standard_request 6 0x0107 8)
                example_device))
  = [RequestReply [18; 1; 0; 2; 0; 0; 0; 64]].
Proof. vm_compute. done. Qed.

(** X16: on a device whose type-2 entry is the device's own producer,
    GET_DESCRIPTOR for configuration index [i] replies with the first
    [min(request.length, len)] bytes of the descriptor of configuration
    [i + 1]; when there is no configuration [i + 1] the [KeyError] of
    the lookup leaves the handler, and the request gets neither a reply
    nor a stall. *)
Theorem get_configuration_descriptor_request (r : USBControlRequest)
    (d : USBBaseDevice) :
  value_high r = DescriptorTypes.CONFIGURATION ->
  descriptors d !! DescriptorTypes.CONFIGURATION
    = Some (PBound get_configuration_descriptor_m) ->
  (configurations d !! (value_low r + 1) = None ->
   handle_generic_get_descriptor_request r d = (Raises KeyError, d))
  /\ (forall c : USBConfiguration,
        configurations d !! (value_low r + 1) = Some c ->
        cfg_descriptor c <> [] ->
        handle_generic_get_descriptor_request r d
        = (Returns tt,
           with_trace
             (trace d ++ [RequestReply (take (N.to_nat (req_length r)) (cfg_descriptor c))])
             d))
  /\ (forall c : USBConfiguration,
        configurations d !! (value_low r + 1) = Some c ->
        cfg_descriptor c = [] ->
        handle_generic_get_descriptor_request r d
        = (Returns tt, with_trace (trace d ++ [RequestStall]) d)).
Proof.
  intros Htype Hentry.
  unfold handle_generic_get_descriptor_request.
  unfold mbind at 1 3 5, M_bind at 1 3 5, get_self. cbn beta iota.
  rewrite Htype, Hentry. cbn [default from_option id resolve_callable call_bound].
  unfold get_configuration_descriptor, mbind, M_bind, get_self. cbn beta iota.
  split; [| split].
  - by intros ->.
  - intros c -> Hne. cbn beta iota. unfold mret, M_ret. cbn beta iota.
    destruct (cfg_descriptor c) as [| b0 b'] eqn:Hdesc; [done |].
    set (l := b0 :: b').
    assert (Htake : slice_to (Z.min (Z.of_N (req_length r)) (Z.of_nat (length l))) l
                    = take (N.to_nat (req_length r)) l).
    { unfold slice_to.
      destruct (Z.leb_spec 0 (Z.min (Z.of_N (req_length r)) (Z.of_nat (length l))));
        [| lia].
      destruct (Z.le_gt_cases (Z.of_N (req_length r)) (Z.of_nat (length l))).
      - rewrite Z.min_l by done. f_equal. lia.
      - rewrite Z.min_r by lia. rewrite Nat2Z.id.
        rewrite !take_ge; [done | lia | lia]. }
    by rewrite Htake.
  - intros c -> Hempty. cbn beta iota. unfold mret, M_ret. cbn beta iota.
    by rewrite Hempty.
Qed.

Lemma get_configuration_descriptor_request_witness :
  (configurations example_device !! (value_low (standard_request 6 0x0205 64) + 1) = None ->
   handle_generic_get_descriptor_request (standard_request 6 0x0205 64) example_device
   = (Raises KeyError, example_device))
  /\ (forall c : USBConfiguration,
        configurations example_device !! (value_low (standard_request 6 0x0205 64) + 1)
          = Some c ->
        cfg_descriptor c <> [] ->
        handle_generic_get_descriptor_request (standard_request 6 0x0205 64)
          example_device
        = (Returns tt,
           with_trace
             (trace example_device
              ++ [RequestReply (take (N.to_nat (req_length (standard_request 6 0x0205 64)))
                                  (cfg_descriptor c))])
             example_device))
  /\ (forall c : USBConfiguration,
        configurations example_device !! (value_low (standard_request 6 0x0205 64) + 1)
          = Some c ->
        cfg_descriptor c = [] ->
        handle_generic_get_descriptor_request (standard_request 6 0x0205 64)
          example_device
        = (Returns tt, with_trace (trace example_device ++ [RequestStall]) example_device)).
Proof.
  apply (get_configuration_descriptor_request (standard_request 6 0x0205 64)
           example_device); reflexivity.
Defined.

(** No sixth configuration: the request for configuration index 5 ends
    in a [KeyError], with nothing said to the host. *)
Example get_configuration_descriptor_index_5 :
  handle_generic_get_descriptor_request (standard_request 6 0x0205 64) example_device
  = (Raises KeyError, example_device).
Proof. vm_compute. done. Qed.

(** ** The standard bindings of [USBDevice] *)

Lemma standard_binding_number (r : USBControlRequest) (b : HandlerBinding) :
  b ∈ USBDevice_request_handler_methods ->
  binding_matches r b = true ->
  hb_number b = Some (req_number r)
  /\ req_type r = STANDARD
  /\ req_recipient r = DEVICE.
Proof.
  intros Hin Hm. unfold USBDevice_request_handler_methods in Hin.
  repeat (apply elem_of_cons in Hin as [-> | Hin];
          [unfold binding_matches in Hm; cbn in Hm;
           repeat (apply andb_prop in Hm as [Hm ?]);
           repeat match goal with
                  | H : bool_decide _ = true |- _ => apply bool_decide_eq_true in H
                  end;
           cbn; repeat split; congruence |]).
  by apply elem_of_nil in Hin.
Qed.

Lemma same_number_same_binding (b1 b2 : HandlerBinding) :
  b1 ∈ USBDevice_request_handler_methods ->
  b2 ∈ USBDevice_request_handler_methods ->
  hb_number b1 = hb_number b2 ->
  b1 = b2.
Proof.
  intros H1 H2. unfold USBDevice_request_handler_methods in *.
  repeat (apply elem_of_cons in H1 as [-> | H1]);
    try (by apply elem_of_nil in H1);
    repeat (apply elem_of_cons in H2 as [-> | H2]);
    try (by apply elem_of_nil in H2);
    done.
Qed.

(** X17: the standard handlers of [USBDevice] never compete.  For any
    request at most one of the eleven bindings matches; a binding
    matches only a standard request addressed to the device, whatever
    its direction; and such a request with one of the numbers 0, 1, 3,
    5, 6, 7, 8, 9, 10, 11, 12 is matched by the binding declared for
    that number, while the numbers 2 and 4 and those above 12 are matched
    by none. *)
Theorem standard_bindings_unambiguous (r : USBControlRequest) :
  (forall b1 b2 : HandlerBinding,
     b1 ∈ USBDevice_request_handler_methods ->
     b2 ∈ USBDevice_request_handler_methods ->
     binding_matches r b1 = true ->
     binding_matches r b2 = true ->
     b1 = b2)
  /\ (forall b : HandlerBinding,
        List.find (binding_matches r) USBDevice_request_handler_methods = Some b ->
        req_type r = STANDARD /\ req_recipient r = DEVICE
        /\ hb_number b = Some (req_number r))
  /\ (req_type r = STANDARD ->
      req_recipient r = DEVICE ->
      req_number r ∈ [0; 1; 3; 5; 6; 7; 8; 9; 10; 11; 12] ->
      exists b : HandlerBinding,
        List.find (binding_matches r) USBDevice_request_handler_methods = Some b
        /\ hb_number b = Some (req_number r))
  /\ (req_number r ∉ [0; 1; 3; 5; 6; 7; 8; 9; 10; 11; 12] ->
      List.find (binding_matches r) USBDevice_request_handler_methods = None).
Proof.
  split; [| split; [| split]].
  - intros b1 b2 H1 H2 Hm1 Hm2.
    apply (standard_binding_number r b1 H1) in Hm1 as (Hn1 & _).
    apply (standard_binding_number r b2 H2) in Hm2 as (Hn2 & _).
    apply same_number_same_binding; congruence.
  - intros b Hfind. apply List.find_some in Hfind as [Hin Hm].
    apply list_elem_of_In in Hin.
    destruct (standard_binding_number r b Hin Hm) as (? & ? & ?). done.
  - intros Htype Hrec Hnum.
    unfold USBDevice_request_handler_methods, binding_matches, standard_to_device.
    cbn [List.find hb_type hb_recipient hb_direction hb_number field_matches].
    rewrite Htype, Hrec.
    repeat (apply elem_of_cons in Hnum as [Hnum | Hnum];
            [rewrite Hnum; cbn; eexists; split; reflexivity |]).
    by apply elem_of_nil in Hnum.
  - intros Hnum.
    destruct (List.find (binding_matches r) USBDevice_request_handler_methods)
      as [b |] eqn:Hfind; [exfalso | done].
    apply List.find_some in Hfind as [Hin Hm].
    apply list_elem_of_In in Hin.
    destruct (standard_binding_number r b Hin Hm) as (Hn & _ & _).
    apply Hnum. unfold USBDevice_request_handler_methods in Hin.
    repeat (apply elem_of_cons in Hin as [-> | Hin];
            [cbn in Hn; injection Hn as <-;
             apply (bool_decide_unpack _); by vm_compute |]).
    by apply elem_of_nil in Hin.
Qed.

Section StandardDispatch.

Variable user_handler : nat -> USBControlRequest -> M unit.

(** X20: on a device whose own handlers are the standard ones of
    [USBDevice], a request matched by one of them is handled by exactly
    that handler: [handle_request] runs it, reports the request handled
    when it returns, lets its exception through when it raises, and in
    neither case asks a configuration, stalls endpoint 0 or records a
    suggestion. *)
Theorem standard_request_reaches_its_handler (d : USBBaseDevice)
    (r : USBControlRequest) (b : HandlerBinding) :
  _request_handler_methods d = USBDevice_request_handler_methods ->
  b ∈ USBDevice_request_handler_methods ->
  binding_matches r b = true ->
  handle_request user_handler r d
  = match call_handler user_handler (hb_method b) r d with
    | (Returns _, d1) => (Returns true, d1)
    | (Raises e, d1) => (Raises e, d1)
    | (Unfinished, d1) => (Unfinished, d1)
    end.
Proof.
  intros Hmethods Hin Hm.
  assert (Hfind : List.find (binding_matches r) USBDevice_request_handler_methods
                  = Some b).
  { destruct (List.find (binding_matches r) USBDevice_request_handler_methods)
      as [b' |] eqn:Hfind.
    - apply List.find_some in Hfind as [Hin' Hm'].
      apply list_elem_of_In in Hin'. f_equal.
      destruct (standard_binding_number r b Hin Hm) as (Hn & _).
      destruct (standard_binding_number r b' Hin' Hm') as (Hn' & _).
      apply same_number_same_binding; congruence.
    - apply list_elem_of_In in Hin.
      pose proof (List.find_none _ _ Hfind b Hin). congruence. }
  assert (Hbase : USBRequestHandler_handle_request user_handler r d
                  = (call_handler user_handler (hb_method b) r;; mret true) d).
  { unfold USBRequestHandler_handle_request.
    unfold mbind at 1, M_bind at 1, get_self. cbn beta iota.
    cbn [node_handle_request]. unfold _request_handlers.
    by rewrite Hmethods, Hfind. }
  unfold handle_request. unfold mbind at 1, M_bind at 1. rewrite Hbase.
  unfold mbind, M_bind.
  by destruct (call_handler user_handler (hb_method b) r d) as [[[] | e |] d1].
Qed.

End StandardDispatch.

Lemma standard_request_reaches_its_handler_witness :
  handle_request no_user_handler (standard_request 5 5 0) example_device
  = match call_handler no_user_handler
            (hb_method (standard_to_device USBStandardRequests.SET_ADDRESS
                          handle_set_address_request_m))
            (standard_request 5 5 0) example_device with
    | (Returns _, d1) => (Returns true, d1)
    | (Raises e, d1) => (Raises e, d1)
    | (Unfinished, d1) => (Unfinished, d1)
    end.
Proof.
  apply (standard_request_reaches_its_handler no_user_handler example_device
           (standard_request 5 5 0)
           (standard_to_device USBStandardRequests.SET_ADDRESS
              handle_set_address_request_m));
    [reflexivity | | reflexivity].
  unfold USBDevice_request_handler_methods.
  do 3 apply list_elem_of_further. apply list_elem_of_here.
Defined.

(** ** Emulation, continued *)

Section EmulationOutcomes.

Variable backend_service_irqs : nat -> M unit.
Variable other_coroutines : nat -> M unit.

(** X18: [run] has no normal exit, whatever the backend and the other
    coroutines do; so when [emulate] returns normally, the run was ended
    by a [KeyboardInterrupt], and the device is as the interrupted run
    left it but for the [disconnect] call that follows. *)
Theorem emulate_returns_only_after_interrupt (fuel : nat) (d d' : USBBaseDevice) :
  (forall d0 : USBBaseDevice,
     fst (run backend_service_irqs other_coroutines fuel d0) <> Returns tt)
  /\ (emulate (run_with backend_service_irqs other_coroutines fuel) d = (Returns tt, d') ->
      exists d0 d1 : USBBaseDevice,
        connect d = (Returns tt, d0)
        /\ run_with backend_service_irqs other_coroutines fuel d0
           = (Raises KeyboardInterrupt, d1)
        /\ d' = with_trace (trace d1 ++ [BackendDisconnect]) d1).
Proof.
  assert (Hrun : forall d0 : USBBaseDevice,
            fst (run backend_service_irqs other_coroutines fuel d0) <> Returns tt).
  { intros d0. unfold run, mbind, M_bind, get_self. cbn beta iota.
    destruct (backend d0) as [b |].
    - unfold mret, M_ret. apply run_loop_never_returns.
    - destruct (connect d0) as [[[] | e |] d1]; try done.
      apply run_loop_never_returns. }
  split; [exact Hrun |].
  destruct (connect_returns d) as (d0 & b & Hconnect & Hb0 & _).
  unfold emulate. erewrite bind_returns by exact Hconnect.
  unfold try_finally, try_except_KeyboardInterrupt, disconnect.
  specialize (Hrun d0). fold (run_with backend_service_irqs other_coroutines fuel d0) in Hrun.
  destruct (run_with backend_service_irqs other_coroutines fuel d0)
    as [[[] | e |] d1] eqn:Hr; [done | | done].
  intros H. exists d0, d1. split; [done |].
  destruct e;
    try (by destruct (backend_call BackendDisconnect d1) as [[[] | e' |] d2]).
  split; [done |].
  destruct (backend d1) as [b1 |] eqn:Hb1.
  - rewrite (backend_call_attached _ _ b1 Hb1) in H. by inversion H.
  - by rewrite (backend_call_detached _ _ Hb1) in H.
Qed.

End EmulationOutcomes.

Lemma emulate_returns_only_after_interrupt_witness :
  exists d0 d1 : USBBaseDevice,
    connect detached_device = (Returns tt, d0)
    /\ run_with interrupted_at_third_poll idle_coroutines 10 d0
       = (Raises KeyboardInterrupt, d1)
    /\ with_trace
         [BackendConnect 64; BackendServiceIrqs; BackendServiceIrqs;
          BackendServiceIrqs; BackendDisconnect] example_device
       = with_trace (trace d1 ++ [BackendDisconnect]) d1.
Proof.
  apply (emulate_returns_only_after_interrupt interrupted_at_third_poll
           idle_coroutines 10 detached_device).
  reflexivity.
Defined.

(** ** Data events *)

Section DataEventProperties.

Variable on_data_received : USBConfiguration -> USBEndpoint -> bytes -> M unit.
Variable on_data_requested : USBConfiguration -> USBEndpoint -> M unit.
Variable on_buffer_empty : USBConfiguration -> USBEndpoint -> M unit.

(** X19: while no configuration is active, every data event the backend
    reports (data available, NAK, buffer available, and the
    endpoint-level handlers behind them) is dropped: the handler returns
    normally, calls nothing on the backend and leaves the device as it
    was. *)
Theorem unconfigured_data_events_dropped (d : USBBaseDevice) (ep_num : Z)
    (endpoint : USBEndpoint) (data : bytes) :
  configuration d = None ->
  handle_nak on_data_requested ep_num d = (Returns tt, d)
  /\ handle_buffer_available on_buffer_empty ep_num d = (Returns tt, d)
  /\ handle_data_available on_data_received ep_num data d = (Returns tt, d)
  /\ handle_data_received on_data_received endpoint data d = (Returns tt, d)
  /\ handle_data_requested on_data_requested endpoint d = (Returns tt, d)
  /\ handle_buffer_empty on_buffer_empty endpoint d = (Returns tt, d)
  /\ get_endpoint ep_num IN d = (Returns None, d)
  /\ get_endpoint ep_num OUT d = (Returns None, d).
Proof.
  intros Hcfg.
  unfold handle_nak, handle_buffer_available, handle_data_available,
    handle_data_received, handle_data_requested, handle_buffer_empty, get_endpoint,
    mbind, M_bind, get_self.
  by rewrite Hcfg.
Qed.

End DataEventProperties.

Lemma unconfigured_data_events_dropped_witness :
  handle_nak (fun _ _ => mthrow KeyError) 1 example_device = (Returns tt, example_device)
  /\ handle_buffer_available (fun _ _ => mthrow KeyError) 1 example_device
     = (Returns tt, example_device)
  /\ handle_data_available (fun _ _ _ => mthrow KeyError) 1 [1; 2] example_device
     = (Returns tt, example_device)
  /\ handle_data_received (fun _ _ _ => mthrow KeyError)
       {| ep_number := 1; ep_direction := OUT; ep_max_packet_size := 64 |} [1; 2]
       example_device = (Returns tt, example_device)
  /\ handle_data_requested (fun _ _ => mthrow KeyError)
       {| ep_number := 1; ep_direction := OUT; ep_max_packet_size := 64 |}
       example_device = (Returns tt, example_device)
  /\ handle_buffer_empty (fun _ _ => mthrow KeyError)
       {| ep_number := 1; ep_direction := OUT; ep_max_packet_size := 64 |}
       example_device = (Returns tt, example_device)
  /\ get_endpoint 1 IN example_device = (Returns None, example_device)
  /\ get_endpoint 1 OUT example_device = (Returns None, example_device).
Proof.
  apply (unconfigured_data_events_dropped
           (fun _ _ _ => mthrow KeyError) (fun _ _ => mthrow KeyError)
           (fun _ _ => mthrow KeyError) example_device 1
           {| ep_number := 1; ep_direction := OUT; ep_max_packet_size := 64 |} [1; 2]).
  reflexivity.
Defined.
